(** * FinanceFlow: the ledger manager and its goal/expense front-end rules

    A shallow embedding of [group5_maincode.py]: the [FinanceManager] class
    (load, totals, categories, goal deletion/achievement) and the callbacks
    of the Tk frames that carry business rules (the entry forms, the goal
    buttons, the two clearing buttons).

    Modelling conventions.
    - Python values read from the JSON document are kept dynamically typed
      ([value]); operations that Python would abort with an exception return
      [Raise e].
    - [save_data] is modelled by recording the document it is asked to write.
    - Widgets (tables, labels, message boxes) are not modelled; the dialog a
      callback ends with is returned as its result.
    - The program stores every amount as [float(amt_str)], a binary64 float,
      and normalizes categories with [str.strip] and [str.capitalize], which
      act on Unicode text. The embedding has two layers. The first reads
      amounts as whole numbers ([Z]) and text as ASCII; it carries what is
      proved of shape, position and sequence (loading, categories, goals by
      index, what a session writes and whether it raises). The second, the
      module [Py], takes the interpreter's numbers and text functions as an
      interface and carries what is proved where an amount is added and then
      compared; two binary64 instances compute its examples. *)

From Stdlib Require Import Ascii String ZArith PrimFloat SpecFloat FloatOps.
From stdpp Require Import base list strings sorting pretty.

Set Warnings "-register-all".
Set Warnings "-inexact-float".

Local Open Scope string_scope.
Local Open Scope Z_scope.

(** ** Python values as produced by [json.load] *)

(** A dict is the list of its items in insertion order; its keys are
    distinct. *)
Inductive value : Type :=
| VNone
| VBool (b : bool)
| VInt (z : Z)
| VStr (s : string)
| VList (l : list value)
| VDict (kv : list (string * value)).

Inductive exn : Type :=
| IndexError | KeyError | TypeError | AttributeError | ValueError.

Inductive res (A : Type) : Type :=
| Ok (a : A)
| Raise (e : exn).
Arguments Ok {A} a.
Arguments Raise {A} e.

#[global] Instance res_ret : MRet res := fun _ a => Ok a.
#[global] Instance res_bind : MBind res := fun _ _ f r =>
  match r with Ok a => f a | Raise e => Raise e end.

(** [d.get(k)] on the key/value pairs of a dict. *)
Fixpoint dict_get (k : string) (kv : list (string * value)) : option value :=
  match kv with
  | [] => None
  | (k', v) :: rest => if String.eqb k k' then Some v else dict_get k rest
  end.

(** [item.get(k, default)]: only a dict has the method. *)
Definition py_get (item : value) (k : string) (default : value) : res value :=
  match item with
  | VDict kv => Ok (from_option id default (dict_get k kv))
  | _ => Raise AttributeError
  end.

(** [item[k]] with a string key [k]. *)
Definition py_item (item : value) (k : string) : res value :=
  match item with
  | VDict kv =>
      match dict_get k kv with Some v => Ok v | None => Raise KeyError end
  | _ => Raise TypeError
  end.

(** The number a value stands for in [+], [-] and in a comparison with a
    number ([True] is 1 and [False] is 0); anything else is a [TypeError].
    Numbers are whole numbers in this layer; [Py.as_num] has them as the
    interpreter does. *)
Definition as_num (v : value) : res Z :=
  match v with
  | VInt z => Ok z
  | VBool b => Ok (Z.b2z b)
  | _ => Raise TypeError
  end.

(** [v == s] for a string [s]. *)
Definition eq_str (v : value) (s : string) : bool :=
  match v with VStr t => String.eqb t s | _ => false end.

(** Python list indexing: a negative index counts from the end. *)
Definition py_index (n : nat) (i : Z) : option nat :=
  let j := if i <? 0 then i + Z.of_nat n else i in
  if (0 <=? j) && (j <? Z.of_nat n) then Some (Z.to_nat j) else None.

(** [l[i]] *)
Definition list_getitem (l : list value) (i : Z) : res value :=
  match py_index (length l) i with
  | Some j => match l !! j with Some v => Ok v | None => Raise IndexError end
  | None => Raise IndexError
  end.

(** [del l[i]] *)
Definition list_delitem (l : list value) (i : Z) : res (list value) :=
  match py_index (length l) i with
  | Some j => Ok (delete j l)
  | None => Raise IndexError
  end.

(** ** Strings: [strip] and [capitalize] as they act on ASCII text, [str] *)

Definition is_space (c : ascii) : bool :=
  let n := nat_of_ascii c in
  (((9 <=? n) && (n <=? 13)) || ((28 <=? n) && (n <=? 32)))%nat.

Fixpoint lstrip (s : string) : string :=
  match s with
  | String c r => if is_space c then lstrip r else s
  | EmptyString => EmptyString
  end.

Definition strip (s : string) : string :=
  String.rev (lstrip (String.rev (lstrip s))).

Definition upper (c : ascii) : ascii :=
  let n := nat_of_ascii c in
  if ((97 <=? n) && (n <=? 122))%nat then ascii_of_nat (n - 32) else c.

Definition lower (c : ascii) : ascii :=
  let n := nat_of_ascii c in
  if ((65 <=? n) && (n <=? 90))%nat then ascii_of_nat (n + 32) else c.

Fixpoint lower_all (s : string) : string :=
  match s with
  | String c r => String (lower c) (lower_all r)
  | EmptyString => EmptyString
  end.

Definition capitalize (s : string) : string :=
  match s with
  | String c r => String (upper c) (lower_all r)
  | EmptyString => EmptyString
  end.

Fixpoint join (sep : string) (l : list string) : string :=
  match l with
  | [] => ""
  | [s] => s
  | s :: r => s +:+ sep +:+ join sep r
  end.

(** [repr(v)] for the values a JSON document yields; string escapes are not
    modelled (strings are quoted as they are). *)
Fixpoint py_repr (v : value) : string :=
  match v with
  | VNone => "None"
  | VBool true => "True"
  | VBool false => "False"
  | VInt z => pretty z
  | VStr s => "'" +:+ s +:+ "'"
  | VList l => "[" +:+ join ", " (map py_repr l) +:+ "]"
  | VDict kv =>
      "{" +:+ join ", " (map (fun p => "'" +:+ fst p +:+ "': " +:+ py_repr (snd p)) kv) +:+ "}"
  end.

(** [str(v)], also what an f-string field [{v}] expands to. *)
Definition py_str (v : value) : string :=
  match v with VStr s => s | _ => py_repr v end.

(** ** The store *)

(** [self.data] after [__init__]: the four keys are always bound to lists
    (lines 20-28), so they are record fields; [others] keeps any further keys
    of the loaded document, which no operation reads. *)
Record Store : Type := mkStore {
  incomes : list value;
  expenses : list value;
  budgets : list value;
  goals : list value;
  others : list (string * value)
}.

Definition empty_store : Store := mkStore [] [] [] [] [].

(** The manager together with its environment: [written] lists the documents
    handed to [save_data], most recent first; [today] is
    [date.today().isoformat()]. *)
Record World : Type := mkWorld {
  data : Store;
  written : list Store;
  today : string
}.

Definition set_data (s : Store) (w : World) : World :=
  mkWorld s (written w) (today w).

(** Computations on the manager: a result or an exception, and the world
    afterwards (an exception does not undo earlier mutations). *)
Definition M (A : Type) : Type := World -> res A * World.

#[global] Instance M_ret : MRet M := fun _ a w => (Ok a, w).
#[global] Instance M_bind : MBind M := fun _ _ f c w =>
  match c w with
  | (Ok a, w') => f a w'
  | (Raise e, w') => (Raise e, w')
  end.

Definition lift {A} (r : res A) : M A := fun w => (r, w).
Definition gets {A} (f : Store -> A) : M A := fun w => (Ok (f (data w)), w).
Definition modify (f : Store -> Store) : M unit :=
  fun w => (Ok tt, set_data (f (data w)) w).
Definition get_today : M string := fun w => (Ok (today w), w).

(** [try: c  except (IndexError, KeyError): h] *)
Definition try_index_key {A} (c : M A) (h : M A) : M A := fun w =>
  match c w with
  | (Raise IndexError, w') | (Raise KeyError, w') => h w'
  | r => r
  end.

(** [self.save_data()]: the whole in-memory document is written. A failed
    write only opens an error box (lines 35-36) and changes nothing else. *)
Definition save_data : M unit := fun w =>
  (Ok tt, mkWorld (data w) (data w :: written w) (today w)).

Definition set_incomes (l : list value) (s : Store) : Store :=
  mkStore l (expenses s) (budgets s) (goals s) (others s).
Definition set_expenses (l : list value) (s : Store) : Store :=
  mkStore (incomes s) l (budgets s) (goals s) (others s).
Definition set_budgets (l : list value) (s : Store) : Store :=
  mkStore (incomes s) (expenses s) l (goals s) (others s).
Definition set_goals (l : list value) (s : Store) : Store :=
  mkStore (incomes s) (expenses s) (budgets s) l (others s).

(** The four keys of the persisted document. *)
Inductive key : Type := Incomes | Expenses | Budgets | Goals.

Definition key_name (k : key) : string :=
  match k with
  | Incomes => "incomes" | Expenses => "expenses"
  | Budgets => "budgets" | Goals => "goals"
  end.

Definition field (k : key) (s : Store) : list value :=
  match k with
  | Incomes => incomes s | Expenses => expenses s
  | Budgets => budgets s | Goals => goals s
  end.

(** What is on disk when the manager starts: no file, a file that
    [json.load] rejects, or a file holding the JSON value [doc]. *)
Inductive document : Type :=
| Missing
| Unparsable
| Parsed (doc : value).

Definition dquote : string := String "034"%char EmptyString.

(** ** class FinanceManager *)
Module FinanceManager.

(** Lines 21-23, for one key: [val = self.data.get(key, None)], then
    [self.data[key] = [val] if isinstance(val, dict) else []] unless [val]
    is a list. *)
Definition coerce (val : value) : list value :=
  match val with
  | VList l => l
  | VDict kv => [VDict kv]
  | _ => []
  end.

Definition is_key (k : string) : bool :=
  String.eqb k "incomes" || String.eqb k "expenses"
  || String.eqb k "budgets" || String.eqb k "goals".

(** The body of the [try] (lines 18-23) on the parsed value:
    [self.data.get] exists only when the document is a JSON object. *)
Definition load (doc : value) : res Store :=
  match doc with
  | VDict kv =>
      let val k := from_option id VNone (dict_get (key_name k) kv) in
      Ok (mkStore (coerce (val Incomes)) (coerce (val Expenses))
                  (coerce (val Budgets)) (coerce (val Goals))
                  (filter (fun p => negb (is_key (fst p))) kv))
  | _ => Raise AttributeError
  end.

Definition read (f : document) : res value :=
  match f with
  | Parsed doc => Ok doc
  | _ => Raise ValueError
  end.

(** [__init__] (lines 14-29); [d] is the current date. *)
Definition __init__ (f : document) (d : string) : World :=
  match f with
  | Missing => snd (save_data (mkWorld empty_store [] d))
  | _ =>
      match read f ≫= load with
      | Ok s => mkWorld s [] d
      | Raise _ => snd (save_data (mkWorld empty_store [] d))
      end
  end.

(** [name.strip().capitalize()]; only a [str] has [strip]. *)
Definition normalize_category (name : value) : res string :=
  match name with
  | VStr s => Ok (capitalize (strip s))
  | _ => Raise AttributeError
  end.

(** [sum(e["amount"] for e in l if e["category"] == category)], the
    running total being [acc]. *)
Fixpoint sum_category (category : string) (l : list value) (acc : Z) : res Z :=
  match l with
  | [] => Ok acc
  | e :: rest =>
      c ← py_item e "category";
      if eq_str c category then
        a ← py_item e "amount";
        n ← as_num a;
        sum_category category rest (acc + n)
      else sum_category category rest acc
  end.

Definition get_category_expense (category : string) : M Z :=
  l ← gets expenses; lift (sum_category category l 0).

Definition entry3 (category : string) (amount : value) (d : string) : value :=
  VDict [("category", VStr category); ("amount", amount); ("date", VStr d)].

Definition entry2 (k : string) (name : string) (amount : value) : value :=
  VDict [(k, VStr name); ("amount", amount)].

Definition add_income (category : string) (amount : value) : M unit :=
  d ← get_today;
  modify (fun s => set_incomes (incomes s ++ [entry3 category amount d])%list s);;
  save_data.

Definition add_expense (category : string) (amount : value) : M unit :=
  d ← get_today;
  modify (fun s => set_expenses (expenses s ++ [entry3 category amount d])%list s);;
  save_data.

Definition add_budget (category : string) (amount : value) : M unit :=
  modify (fun s => set_budgets (budgets s ++ [entry2 "category" category amount])%list s);;
  save_data.

Definition add_goal (name : string) (amount : value) : M unit :=
  modify (fun s => set_goals (goals s ++ [entry2 "name" name amount])%list s);;
  save_data.

(** [sum(item.get("amount", 0) for item in l)], the running total being
    [acc]. *)
Fixpoint sum_amounts (l : list value) (acc : Z) : res Z :=
  match l with
  | [] => Ok acc
  | item :: rest =>
      a ← py_get item "amount" (VInt 0);
      n ← as_num a;
      sum_amounts rest (acc + n)
  end.

Definition get_total_income : M Z :=
  l ← gets incomes; lift (sum_amounts l 0).

Definition get_total_expense : M Z :=
  l ← gets expenses; lift (sum_amounts l 0).

Definition get_available_funds : M Z :=
  i ← get_total_income; e ← get_total_expense; mret (i - e).

Definition can_add_expense (amount : Z) : M bool :=
  funds ← get_available_funds; mret (amount <=? funds).

(** Sets of Python values: only [None], [bool], [int] and [str] hash;
    [True == 1] and [False == 0]. *)
Definition hashable (v : value) : bool :=
  match v with VList _ | VDict _ => false | _ => true end.

Definition num_val (v : value) : Z :=
  match v with VInt z => z | VBool b => Z.b2z b | _ => 0 end.

Definition is_num (v : value) : bool :=
  match v with VInt _ | VBool _ => true | _ => false end.

Definition py_eq (a b : value) : bool :=
  match a, b with
  | VNone, VNone => true
  | VStr s, VStr t => String.eqb s t
  | _, _ => is_num a && is_num b && (num_val a =? num_val b)
  end.

(** [cats.add(v)]; the set is kept as the list of its elements. *)
Definition set_add (v : value) (cats : list value) : res (list value) :=
  if hashable v then
    Ok (if existsb (py_eq v) cats then cats else (cats ++ [v])%list)
  else Raise TypeError.

Fixpoint add_categories (l : list value) (cats : list value) : res (list value) :=
  match l with
  | [] => Ok cats
  | item :: rest =>
      c ← py_get item "category" (VStr "");
      cats' ← set_add c cats;
      add_categories rest cats'
  end.

(** The elements as strings, when all of them are. *)
Fixpoint strs_of (l : list value) : option (list string) :=
  match l with
  | [] => Some []
  | VStr s :: rest => cons s <$> strs_of rest
  | _ => None
  end.

Definition num_le (a b : value) : Prop := num_val a <= num_val b.

#[global] Instance num_le_dec : RelDecision num_le.
Proof. intros a b. unfold num_le. apply _. Defined.

(** [sorted(cats)] for a set: strings compare with strings and numbers
    with numbers; any other pair of elements is a [TypeError]. *)
Definition sorted (cats : list value) : res (list value) :=
  match cats with
  | [] | [_] => Ok cats
  | _ =>
      match strs_of cats with
      | Some ss => Ok (VStr <$> merge_sort String.le ss)
      | None =>
          if forallb is_num cats then Ok (merge_sort num_le cats)
          else Raise TypeError
      end
  end.

Definition categories : M (list value) :=
  incs ← gets incomes;
  cats ← lift (add_categories incs []);
  exps ← gets expenses;
  cats ← lift (add_categories exps cats);
  lift (sorted cats).

Definition delete_goal (index : Z) : M unit :=
  try_index_key
    (g ← gets goals;
     g' ← lift (list_delitem g index);
     modify (set_goals g');;
     save_data)
    (mret tt).

Definition achieve_goal (index : Z) : M value :=
  try_index_key
    (g ← gets goals;
     goal ← lift (list_getitem g index);
     g' ← lift (list_delitem g index);
     modify (set_goals g');;
     save_data;;
     mret goal)
    (mret VNone).

Definition achieve_all_goals : M (list value) :=
  achieved_goals ← gets goals;
  modify (set_goals []);;
  save_data;;
  mret achieved_goals.

Definition delete_all_goals : M unit :=
  modify (set_goals []);;
  save_data.

End FinanceManager.

(** The dialog a callback ends with. *)
Inductive dialog : Type :=
| NoDialog
| InputError
| InsufficientFunds
| BudgetExceeded
| ExpenseAdded
| InsufficientBalance (goal_name : value)
| GoalAchieved (goal_name : value).

(** ** class ExpenseFrame *)
Module ExpenseFrame.

(** [next((b["amount"] for b in budgets if normalize_category(b["category"])
    == norm_cat), 0)]: the generator is consumed up to its first element
    only. *)
Fixpoint first_budget (budgets : list value) (norm_cat : string) : res value :=
  match budgets with
  | [] => Ok (VInt 0)
  | b :: rest =>
      c ← py_item b "category";
      n ← FinanceManager.normalize_category c;
      if String.eqb n norm_cat then py_item b "amount"
      else first_budget rest norm_cat
  end.

(** [add_expense] (lines 228-267). [entry_cat] is the text of the category
    field; [entry_amt] is the amount typed, a whole number in this layer,
    [None] when [float(amt_str)] raises [ValueError].
    [Py.ExpenseFrame.add_expense] has the amount as the float it is. *)
Definition add_expense (entry_cat : string) (entry_amt : option Z) : M dialog :=
  let cat := strip entry_cat in
  if String.eqb cat "" then mret InputError else
  match entry_amt with
  | None => mret InputError
  | Some amt =>
      if amt <=? 0 then mret InputError else
      norm_cat ← lift (FinanceManager.normalize_category (VStr cat));
      ok ← FinanceManager.can_add_expense amt;
      if negb ok then mret InsufficientFunds else
      budgets ← gets budgets;
      budget_amt ← lift (first_budget budgets norm_cat ≫= as_num);
      exceeded ←
        (if 0 <? budget_amt then
           current_spent ← FinanceManager.get_category_expense norm_cat;
           mret (budget_amt <? current_spent + amt)
         else mret false);
      if exceeded : bool then mret BudgetExceeded else
      FinanceManager.add_expense cat (VInt amt);;
      mret ExpenseAdded
  end.

End ExpenseFrame.

(** ** class SummaryFrame *)
Module SummaryFrame.

(** [goal.get('name') if isinstance(goal, dict) and 'name' in goal
    else str(goal)] *)
Definition goal_name (goal : value) : value :=
  match goal with
  | VDict kv => from_option id (VStr (py_str goal)) (dict_get "name" kv)
  | _ => VStr (py_str goal)
  end.

(** [goal.get('amount') if isinstance(goal, dict) and 'amount' in goal
    else 0] *)
Definition goal_amt (goal : value) : value :=
  match goal with
  | VDict kv => from_option id (VInt 0) (dict_get "amount" kv)
  | _ => VInt 0
  end.

(** The f-string [Goal ("{goal_name}")]. *)
Definition expense_category (name : value) : string :=
  "Goal (" +:+ dquote +:+ py_str name +:+ dquote +:+ ")".

(** [achieve_goal] (lines 494-510). The goal rows are redrawn
    ([update_goals_display]) once the store has been updated; the redraw
    reads the store only. *)
Definition achieve_goal (idx : Z) : M dialog :=
  goals ← gets goals;
  if (idx <? 0) || (Z.of_nat (length goals) <=? idx) then mret NoDialog else
  goal ← lift (list_getitem goals idx);
  balance ← FinanceManager.get_available_funds;
  amt ← lift (as_num (goal_amt goal));
  if balance <? amt then mret (InsufficientBalance (goal_name goal)) else
  FinanceManager.delete_goal idx;;
  FinanceManager.add_expense (expense_category (goal_name goal)) (goal_amt goal);;
  mret (GoalAchieved (goal_name goal)).

Definition delete_goal (idx : Z) : M unit :=
  FinanceManager.delete_goal idx.

(** The loop of [achieve_all_goals] (lines 521-531) over the copied list. *)
Fixpoint achieve_loop (goals : list value) (balance : Z)
    (achieved not_achieved : list value) : M (list value * list value) :=
  match goals with
  | [] => mret (achieved, not_achieved)
  | goal :: rest =>
      amt ← lift (as_num (goal_amt goal));
      if amt <=? balance then
        FinanceManager.delete_goal 0;;
        FinanceManager.add_expense (expense_category (goal_name goal)) (goal_amt goal);;
        achieve_loop rest (balance - amt) (achieved ++ [goal_name goal])%list not_achieved
      else
        achieve_loop rest balance achieved (not_achieved ++ [goal_name goal])%list
  end.

(** [achieve_all_goals] (lines 516-536); the two name lists, which the
    callback shows in message boxes, are the result. *)
Definition achieve_all_goals : M (list value * list value) :=
  goals ← gets goals;
  balance ← FinanceManager.get_available_funds;
  achieve_loop goals balance [] [].

Definition delete_all_goals : M unit :=
  FinanceManager.delete_all_goals.

(** [delete_budgets] (lines 486-492); [confirm] is the answer to the
    yes/no box. The redraw that follows reads the store only. *)
Definition delete_budgets (confirm : bool) : M unit :=
  if confirm then modify (set_budgets []);; save_data else mret tt.

End SummaryFrame.

(** The box a plain entry form ends with. *)
Inductive form_dialog : Type :=
| FormInputError
| FormSuccess.

(** ** class IncomeFrame *)
Module IncomeFrame.

(** [add_income] (lines 187-205). [entry_cat] is the text of the category
    field; [entry_amt] is the amount typed, a whole number in this layer,
    [None] when [float(amt_str)] raises [ValueError].
    [Py.IncomeFrame.add_income] has the amount as the float it is. *)
Definition add_income (entry_cat : string) (entry_amt : option Z) : M form_dialog :=
  let cat := strip entry_cat in
  if String.eqb cat "" then mret FormInputError else
  match entry_amt with
  | None => mret FormInputError
  | Some amt =>
      if amt <=? 0 then mret FormInputError else
      FinanceManager.add_income cat (VInt amt);;
      mret FormSuccess
  end.

End IncomeFrame.

(** ** class BudgetFrame *)
Module BudgetFrame.

(** [set_budget] (lines 290-308), with the same reading of the fields. *)
Definition set_budget (entry_cat : string) (entry_amt : option Z) : M form_dialog :=
  let cat := strip entry_cat in
  if String.eqb cat "" then mret FormInputError else
  match entry_amt with
  | None => mret FormInputError
  | Some amt =>
      if amt <=? 0 then mret FormInputError else
      FinanceManager.add_budget cat (VInt amt);;
      mret FormSuccess
  end.

End BudgetFrame.

(** ** class GoalFrame *)
Module GoalFrame.

(** [set_goal] (lines 331-349), with the same reading of the fields. *)
Definition set_goal (entry_name : string) (entry_amt : option Z) : M form_dialog :=
  let name := strip entry_name in
  if String.eqb name "" then mret FormInputError else
  match entry_amt with
  | None => mret FormInputError
  | Some amt =>
      if amt <=? 0 then mret FormInputError else
      FinanceManager.add_goal name (VInt amt);;
      mret FormSuccess
  end.

End GoalFrame.

(** ** class CategorySummaryFrame *)
Module CategorySummaryFrame.

(** [clear_transactions] (lines 395-402); [confirm] is the answer to the
    yes/no box. With both sequences empty the redraw has no row to build. *)
Definition clear_transactions (confirm : bool) : M unit :=
  if confirm then
    modify (set_incomes []);;
    modify (set_expenses []);;
    save_data
  else mret tt.

End CategorySummaryFrame.

(** ** The buttons *)

(** What the user can do, each with the callback it is bound to. *)
Inductive action : Type :=
| SubmitIncome (entry_cat : string) (entry_amt : option Z)
| SubmitExpense (entry_cat : string) (entry_amt : option Z)
| SubmitBudget (entry_cat : string) (entry_amt : option Z)
| SubmitGoal (entry_name : string) (entry_amt : option Z)
| ClickAchieve (idx : Z)
| ClickDelete (idx : Z)
| ClickAchieveAll
| ClickDeleteAll
| ClickClearTransactions (confirm : bool)
| ClickDeleteBudgets (confirm : bool).

(** Whether the callback returned or raised. *)
Definition outcome {A} (r : res A * World) : res unit * World :=
  (match fst r with Ok _ => Ok tt | Raise e => Raise e end, snd r).

Definition callback (a : action) : M unit := fun w =>
  match a with
  | SubmitIncome c amt => outcome (IncomeFrame.add_income c amt w)
  | SubmitExpense c amt => outcome (ExpenseFrame.add_expense c amt w)
  | SubmitBudget c amt => outcome (BudgetFrame.set_budget c amt w)
  | SubmitGoal n amt => outcome (GoalFrame.set_goal n amt w)
  | ClickAchieve idx => outcome (SummaryFrame.achieve_goal idx w)
  | ClickDelete idx => outcome (SummaryFrame.delete_goal idx w)
  | ClickAchieveAll => outcome (SummaryFrame.achieve_all_goals w)
  | ClickDeleteAll => outcome (SummaryFrame.delete_all_goals w)
  | ClickClearTransactions c => outcome (CategorySummaryFrame.clear_transactions c w)
  | ClickDeleteBudgets c => outcome (SummaryFrame.delete_budgets c w)
  end.

(** The world after the callback; an exception ends the callback only. *)
Definition step (w : World) (a : action) : World := snd (callback a w).

(** A session: the actions in order. *)
Definition session (w : World) (l : list action) : World := foldl step w l.

(** ** Running the monad *)

Ltac run :=
  unfold FinanceManager.can_add_expense, FinanceManager.get_available_funds,
    FinanceManager.get_total_income, FinanceManager.get_total_expense,
    FinanceManager.get_category_expense, FinanceManager.add_expense,
    FinanceManager.delete_goal, FinanceManager.achieve_goal,
    try_index_key, mbind, M_bind, mret, M_ret, gets, lift, modify, get_today,
    save_data, set_data; simpl.

(** ** Vocabulary of the statements *)

(** The amount a record contributes to a total: its [amount], 0 when the
    field is missing. *)
Definition amount_of (item : value) : Z :=
  match item with
  | VDict kv => match dict_get "amount" kv with Some (VInt z) => z | _ => 0 end
  | _ => 0
  end.

(** The sum of the records' amounts. *)
Fixpoint total_amount (l : list value) : Z :=
  match l with
  | [] => 0
  | item :: rest => amount_of item + total_amount rest
  end.

(** A record whose [amount], when present, is a number. *)
Definition amount_ok (item : value) : Prop :=
  exists kv, item = VDict kv /\
    (dict_get "amount" kv = None \/ exists z, dict_get "amount" kv = Some (VInt z)).

(** A goal as [add_goal] stores it: a name and a numeric amount. *)
Definition is_goal (g : value) (name : string) (amount : Z) : Prop :=
  exists kv, g = VDict kv /\ dict_get "name" kv = Some (VStr name) /\
    dict_get "amount" kv = Some (VInt amount).

(** A record carrying the text category [c]. *)
Definition has_category (item : value) (c : string) : Prop :=
  exists kv, item = VDict kv /\ dict_get "category" kv = Some (VStr c).

(** A budget as [add_budget] stores it. *)
Definition is_budget (b : value) (category : string) (amount : Z) : Prop :=
  exists kv, b = VDict kv /\ dict_get "category" kv = Some (VStr category) /\
    dict_get "amount" kv = Some (VInt amount).

(** Category normalization on text. *)
Definition normalize (c : string) : string := capitalize (strip c).

(** A budget whose normalized category differs from [nc]. *)
Definition other_budget (nc : string) (b : value) : Prop :=
  exists c, has_category b c /\ normalize c <> nc.

(** The world after [add_expense(category, amount)]. *)
Definition with_expense (category : string) (amount : value) (w : World) : World :=
  let s := set_expenses
             (expenses (data w) ++ [FinanceManager.entry3 category amount (today w)])%list
             (data w) in
  mkWorld s (s :: written w) (today w).

(** Neither a record nor a sequence. *)
Definition scalar (v : value) : Prop :=
  match v with VList _ | VDict _ => False | _ => True end.

(** The document binds key [k] to a sequence. *)
Definition list_shaped (kv : list (string * value)) (k : key) : Prop :=
  exists l, dict_get (key_name k) kv = Some (VList l).

(** The state after a reset: four empty sequences, written once. *)
Definition reset_world (d : string) : World :=
  mkWorld empty_store [empty_store] d.

(** The settlement of a goal: it leaves the list and its amount is spent. *)
Definition settled (idx : nat) (name : string) (a : Z) (w : World) : World :=
  let s1 := set_goals (delete idx (goals (data w))) (data w) in
  with_expense ("Goal (" +:+ dquote +:+ name +:+ dquote +:+ ")") (VInt a)
    (mkWorld s1 (s1 :: written w) (today w)).

(** The goal's name as stored. *)
Definition name_of (g : value) : value :=
  match g with
  | VDict kv => from_option id VNone (dict_get "name" kv)
  | _ => VNone
  end.

(** The expense that settles goal [g] on day [d]. *)
Definition settlement (d : string) (g : value) : value :=
  FinanceManager.entry3 (SummaryFrame.expense_category (name_of g)) (VInt (amount_of g)) d.

(** The greedy rule: the goals that pass the check against the funds left
    when they are visited, and those that fail it, both in visit order. *)
Fixpoint greedy (gs : list value) (balance : Z) : list value * list value :=
  match gs with
  | [] => ([], [])
  | g :: rest =>
      if amount_of g <=? balance then
        let r := greedy rest (balance - amount_of g) in (g :: fst r, snd r)
      else
        let r := greedy rest balance in (fst r, g :: snd r)
  end.

Definition well_formed_goal (g : value) : Prop := exists name a, is_goal g name a.

(** An income or an expense as the forms and the goal settlement store it:
    a named category, a positive amount and a date. *)
Definition posted (item : value) : Prop :=
  exists c a d, item = FinanceManager.entry3 c (VInt a) d /\ c <> "" /\ 0 < a.

(** A budget as the budget form stores it. *)
Definition budget_entry (b : value) : Prop :=
  exists c a, b = FinanceManager.entry2 "category" c (VInt a) /\ c <> "" /\ 0 < a.

(** A goal as the goal form stores it. *)
Definition goal_entry (g : value) : Prop :=
  exists n a, g = FinanceManager.entry2 "name" n (VInt a) /\ n <> "" /\ 0 < a.

(** A store in which every record is as the forms make it and the expenses
    do not exceed the incomes. *)
Definition sound (s : Store) : Prop :=
  Forall posted (incomes s) /\ Forall posted (expenses s) /\
  Forall budget_entry (budgets s) /\ Forall goal_entry (goals s) /\
  total_amount (expenses s) <= total_amount (incomes s).

(** The document last handed to [save_data] is the store in memory. *)
Definition synced (w : World) : Prop := head (written w) = Some (data w).

(** The world after [add_income(category, amount)]. *)
Definition with_income (category : string) (amount : value) (w : World) : World :=
  let s := set_incomes
             (incomes (data w) ++ [FinanceManager.entry3 category amount (today w)])%list
             (data w) in
  mkWorld s (s :: written w) (today w).

(** The world after [add_budget(category, amount)]. *)
Definition with_budget (category : string) (amount : value) (w : World) : World :=
  let s := set_budgets
             (budgets (data w) ++ [FinanceManager.entry2 "category" category amount])%list
             (data w) in
  mkWorld s (s :: written w) (today w).

(** The world after [add_goal(name, amount)]. *)
Definition with_goal (name : string) (amount : value) (w : World) : World :=
  let s := set_goals
             (goals (data w) ++ [FinanceManager.entry2 "name" name amount])%list
             (data w) in
  mkWorld s (s :: written w) (today w).

(** The world after a successful [del self.data['goals'][j]] and the save. *)
Definition without_goal (j : nat) (w : World) : World :=
  let s := set_goals (delete j (goals (data w))) (data w) in
  mkWorld s (s :: written w) (today w).

(** The JSON value [json.dump] writes for a store: the four sequences and
    the further keys (the order of the keys in the file plays no role when
    the file is loaded). *)
Definition document_of (s : Store) : value :=
  VDict ([("incomes", VList (incomes s)); ("expenses", VList (expenses s));
          ("budgets", VList (budgets s)); ("goals", VList (goals s))]
         ++ others s)%list.

(** None of the further keys is one of the four. *)
Definition no_reserved_key (s : Store) : Prop :=
  Forall (fun p => FinanceManager.is_key (fst p) = false) (others s).

(** ** Example data *)

Definition goal (name : string) (amount : Z) : value :=
  VDict [("name", VStr name); ("amount", VInt amount)].

Definition income (category : string) (amount : Z) : value :=
  VDict [("category", VStr category); ("amount", VInt amount);
         ("date", VStr "2024-01-01")].

Definition world_of (s : Store) : World := mkWorld s [] "2024-01-02".

(** * The callbacks that compute with amounts, over Python's own numbers

    Every amount the forms store is [float(amt_str)], a binary64 float, and
    [strip] and [capitalize] act on Unicode text. Where a property depends on
    arithmetic or on normalization, the callbacks are embedded once more, with
    the interpreter's operations on numbers and text taken as an interface.
    What is proved of them holds whatever these operations do, hence for
    CPython's; the binary64 interpreters below them compute the examples. *)
Module Py.

(** The built-in operations the callbacks use. [N] is the type of Python's
    numbers ([int] and [float] alike); [acc] is what [sum] keeps between two
    items (the running total, and more when the summation is compensated).
    Sums and differences may raise, as that of a float and an [int] beyond
    its range does. The one fact taken for granted is that [0 > 0] is
    false. *)
Class Runtime (N : Type) : Type := {
  num0 : N;                          (* 0 *)
  of_bool : bool -> N;               (* True as 1, False as 0 *)
  num_add : N -> N -> res N;         (* x + y *)
  num_sub : N -> N -> res N;         (* x - y *)
  num_le : N -> N -> bool;           (* x <= y *)
  num_gt : N -> N -> bool;           (* x > y *)
  acc : Type;
  sum_start : acc;                   (* sum() before the first item *)
  sum_add : acc -> N -> res acc;     (* sum() taking one more item *)
  sum_end : acc -> N;                (* what sum() returns after the last *)
  num_repr : N -> string;            (* repr(x) *)
  str_strip : string -> string;      (* s.strip() *)
  str_capitalize : string -> string; (* s.capitalize() *)
  num0_gt : num_gt num0 num0 = false
}.

(** ** Python values *)

Inductive value (N : Type) : Type :=
| VNone
| VBool (b : bool)
| VNum (n : N)
| VStr (s : string)
| VList (l : list (value N))
| VDict (kv : list (string * value N)).
Arguments VNone {N}.
Arguments VBool {N} b.
Arguments VNum {N} n.
Arguments VStr {N} s.
Arguments VList {N} l.
Arguments VDict {N} kv.

(** [d.get(k)] on the key/value pairs of a dict. *)
Fixpoint dict_get {N} (k : string) (kv : list (string * value N)) : option (value N) :=
  match kv with
  | [] => None
  | (k', v) :: rest => if String.eqb k k' then Some v else dict_get k rest
  end.

(** [item.get(k, default)] *)
Definition py_get {N} (item : value N) (k : string) (default : value N) : res (value N) :=
  match item with
  | VDict kv => Ok (from_option id default (dict_get k kv))
  | _ => Raise AttributeError
  end.

(** [item[k]] with a string key [k]. *)
Definition py_item {N} (item : value N) (k : string) : res (value N) :=
  match item with
  | VDict kv =>
      match dict_get k kv with Some v => Ok v | None => Raise KeyError end
  | _ => Raise TypeError
  end.

(** The number a value stands for in [+], [-], [<=] and [>] against a
    number; anything but a number is a [TypeError] there. *)
Definition as_num {N} {R : Runtime N} (v : value N) : res N :=
  match v with
  | VNum n => Ok n
  | VBool b => Ok (of_bool b)
  | _ => Raise TypeError
  end.

(** [v == s] for a string [s]. *)
Definition eq_str {N} (v : value N) (s : string) : bool :=
  match v with VStr t => String.eqb t s | _ => false end.

(** [l[i]] *)
Definition list_getitem {N} (l : list (value N)) (i : Z) : res (value N) :=
  match py_index (length l) i with
  | Some j => match l !! j with Some v => Ok v | None => Raise IndexError end
  | None => Raise IndexError
  end.

(** [del l[i]] *)
Definition list_delitem {N} (l : list (value N)) (i : Z) : res (list (value N)) :=
  match py_index (length l) i with
  | Some j => Ok (delete j l)
  | None => Raise IndexError
  end.

(** [repr(v)]; string escapes are not modelled. *)
Fixpoint py_repr {N} {R : Runtime N} (v : value N) : string :=
  match v with
  | VNone => "None"
  | VBool true => "True"
  | VBool false => "False"
  | VNum n => num_repr n
  | VStr s => "'" +:+ s +:+ "'"
  | VList l => "[" +:+ join ", " (map py_repr l) +:+ "]"
  | VDict kv =>
      "{" +:+ join ", " (map (fun p => "'" +:+ fst p +:+ "': " +:+ py_repr (snd p)) kv) +:+ "}"
  end.

(** [str(v)], also what an f-string field [{v}] expands to. *)
Definition py_str {N} {R : Runtime N} (v : value N) : string :=
  match v with VStr s => s | _ => py_repr v end.

(** ** The store *)

Record Store (N : Type) : Type := mkStore {
  incomes : list (value N);
  expenses : list (value N);
  budgets : list (value N);
  goals : list (value N);
  others : list (string * value N)
}.
Arguments mkStore {N} incomes expenses budgets goals others.
Arguments incomes {N} s.
Arguments expenses {N} s.
Arguments budgets {N} s.
Arguments goals {N} s.
Arguments others {N} s.

Record World (N : Type) : Type := mkWorld {
  data : Store N;
  written : list (Store N);
  today : string
}.
Arguments mkWorld {N} data written today.
Arguments data {N} w.
Arguments written {N} w.
Arguments today {N} w.

Definition set_data {N} (s : Store N) (w : World N) : World N :=
  mkWorld s (written w) (today w).

Definition M (N A : Type) : Type := World N -> res A * World N.

#[global] Instance M_ret {N} : MRet (M N) := fun _ a w => (Ok a, w).
#[global] Instance M_bind {N} : MBind (M N) := fun _ _ f c w =>
  match c w with
  | (Ok a, w') => f a w'
  | (Raise e, w') => (Raise e, w')
  end.

Definition lift {N A} (r : res A) : M N A := fun w => (r, w).
Definition gets {N A} (f : Store N -> A) : M N A := fun w => (Ok (f (data w)), w).
Definition modify {N} (f : Store N -> Store N) : M N unit :=
  fun w => (Ok tt, set_data (f (data w)) w).
Definition get_today {N} : M N string := fun w => (Ok (today w), w).

(** [try: c  except (IndexError, KeyError): h] *)
Definition try_index_key {N A} (c : M N A) (h : M N A) : M N A := fun w =>
  match c w with
  | (Raise IndexError, w') | (Raise KeyError, w') => h w'
  | r => r
  end.

Definition save_data {N} : M N unit := fun w =>
  (Ok tt, mkWorld (data w) (data w :: written w) (today w)).

Definition set_incomes {N} (l : list (value N)) (s : Store N) : Store N :=
  mkStore l (expenses s) (budgets s) (goals s) (others s).
Definition set_expenses {N} (l : list (value N)) (s : Store N) : Store N :=
  mkStore (incomes s) l (budgets s) (goals s) (others s).
Definition set_budgets {N} (l : list (value N)) (s : Store N) : Store N :=
  mkStore (incomes s) (expenses s) l (goals s) (others s).
Definition set_goals {N} (l : list (value N)) (s : Store N) : Store N :=
  mkStore (incomes s) (expenses s) (budgets s) l (others s).

(** ** class FinanceManager *)
Module FinanceManager.

(** [name.strip().capitalize()]; only a [str] has [strip]. *)
Definition normalize_category {N} {R : Runtime N} (name : value N) : res string :=
  match name with
  | VStr s => Ok (str_capitalize (str_strip s))
  | _ => Raise AttributeError
  end.

(** [sum(e["amount"] for e in l if e["category"] == category)]: the items
    are drawn and added one at a time, [s] being the state of the sum. *)
Fixpoint sum_category {N} {R : Runtime N} (category : string) (l : list (value N))
    (s : acc) : res N :=
  match l with
  | [] => Ok (sum_end s)
  | e :: rest =>
      c ← py_item e "category";
      if eq_str c category then
        a ← py_item e "amount";
        n ← as_num a;
        s' ← sum_add s n;
        sum_category category rest s'
      else sum_category category rest s
  end.

Definition get_category_expense {N} {R : Runtime N} (category : string) : M N N :=
  l ← gets expenses; lift (sum_category category l sum_start).

Definition entry3 {N} (category : string) (amount : value N) (d : string) : value N :=
  VDict [("category", VStr category); ("amount", amount); ("date", VStr d)].

Definition entry2 {N} (k : string) (name : string) (amount : value N) : value N :=
  VDict [(k, VStr name); ("amount", amount)].

Definition add_income {N} (category : string) (amount : value N) : M N unit :=
  d ← get_today;
  modify (fun s => set_incomes (incomes s ++ [entry3 category amount d])%list s);;
  save_data.

Definition add_expense {N} (category : string) (amount : value N) : M N unit :=
  d ← get_today;
  modify (fun s => set_expenses (expenses s ++ [entry3 category amount d])%list s);;
  save_data.

Definition add_budget {N} (category : string) (amount : value N) : M N unit :=
  modify (fun s => set_budgets (budgets s ++ [entry2 "category" category amount])%list s);;
  save_data.

Definition add_goal {N} (name : string) (amount : value N) : M N unit :=
  modify (fun s => set_goals (goals s ++ [entry2 "name" name amount])%list s);;
  save_data.

(** [sum(item.get("amount", 0) for item in l)], [s] being the state of the
    sum. *)
Fixpoint sum_amounts {N} {R : Runtime N} (l : list (value N)) (s : acc) : res N :=
  match l with
  | [] => Ok (sum_end s)
  | item :: rest =>
      a ← py_get item "amount" (VNum num0);
      n ← as_num a;
      s' ← sum_add s n;
      sum_amounts rest s'
  end.

Definition get_total_income {N} {R : Runtime N} : M N N :=
  l ← gets incomes; lift (sum_amounts l sum_start).

Definition get_total_expense {N} {R : Runtime N} : M N N :=
  l ← gets expenses; lift (sum_amounts l sum_start).

Definition get_available_funds {N} {R : Runtime N} : M N N :=
  i ← get_total_income; e ← get_total_expense; lift (num_sub i e).

Definition can_add_expense {N} {R : Runtime N} (amount : N) : M N bool :=
  funds ← get_available_funds; mret (num_le amount funds).

Definition delete_goal {N} (index : Z) : M N unit :=
  try_index_key
    (g ← gets goals;
     g' ← lift (list_delitem g index);
     modify (set_goals g');;
     save_data)
    (mret tt).

End FinanceManager.

(** The dialog a callback ends with. *)
Inductive dialog (N : Type) : Type :=
| NoDialog
| InputError
| InsufficientFunds
| BudgetExceeded
| ExpenseAdded
| InsufficientBalance (goal_name : value N)
| GoalAchieved (goal_name : value N).
Arguments NoDialog {N}.
Arguments InputError {N}.
Arguments InsufficientFunds {N}.
Arguments BudgetExceeded {N}.
Arguments ExpenseAdded {N}.
Arguments InsufficientBalance {N} goal_name.
Arguments GoalAchieved {N} goal_name.

(** ** class ExpenseFrame *)
Module ExpenseFrame.

(** [next((b["amount"] for b in budgets if normalize_category(b["category"])
    == norm_cat), 0)] *)
Fixpoint first_budget {N} {R : Runtime N} (budgets : list (value N)) (norm_cat : string)
    : res (value N) :=
  match budgets with
  | [] => Ok (VNum num0)
  | b :: rest =>
      c ← py_item b "category";
      n ← FinanceManager.normalize_category c;
      if String.eqb n norm_cat then py_item b "amount"
      else first_budget rest norm_cat
  end.

(** [add_expense] (lines 228-267). [entry_cat] is the text of the category
    field; [entry_amt] is [float(amt_str)], [None] when that raises
    [ValueError]. *)
Definition add_expense {N} {R : Runtime N} (entry_cat : string) (entry_amt : option N)
    : M N (dialog N) :=
  let cat := str_strip entry_cat in
  if String.eqb cat "" then mret InputError else
  match entry_amt with
  | None => mret InputError
  | Some amt =>
      if num_le amt num0 then mret InputError else
      norm_cat ← lift (FinanceManager.normalize_category (VStr cat));
      ok ← FinanceManager.can_add_expense amt;
      if negb ok then mret InsufficientFunds else
      budgets ← gets budgets;
      budget_amt ← lift (first_budget budgets norm_cat ≫= as_num);
      exceeded ←
        (if num_gt budget_amt num0 then
           current_spent ← FinanceManager.get_category_expense norm_cat;
           total ← lift (num_add current_spent amt);
           mret (num_gt total budget_amt)
         else mret false);
      if exceeded : bool then mret BudgetExceeded else
      FinanceManager.add_expense cat (VNum amt);;
      mret ExpenseAdded
  end.

End ExpenseFrame.

(** ** class SummaryFrame *)
Module SummaryFrame.

Definition goal_name {N} {R : Runtime N} (goal : value N) : value N :=
  match goal with
  | VDict kv => from_option id (VStr (py_str goal)) (dict_get "name" kv)
  | _ => VStr (py_str goal)
  end.

Definition goal_amt {N} {R : Runtime N} (goal : value N) : value N :=
  match goal with
  | VDict kv => from_option id (VNum num0) (dict_get "amount" kv)
  | _ => VNum num0
  end.

(** The f-string [Goal ("{goal_name}")]. *)
Definition expense_category {N} {R : Runtime N} (name : value N) : string :=
  "Goal (" +:+ dquote +:+ py_str name +:+ dquote +:+ ")".

(** [achieve_goal] (lines 494-510). *)
Definition achieve_goal {N} {R : Runtime N} (idx : Z) : M N (dialog N) :=
  goals ← gets goals;
  if (idx <? 0) || (Z.of_nat (length goals) <=? idx) then mret NoDialog else
  goal ← lift (list_getitem goals idx);
  balance ← FinanceManager.get_available_funds;
  amt ← lift (as_num (goal_amt goal));
  if num_gt amt balance then mret (InsufficientBalance (goal_name goal)) else
  FinanceManager.delete_goal idx;;
  FinanceManager.add_expense (expense_category (goal_name goal)) (goal_amt goal);;
  mret (GoalAchieved (goal_name goal)).

End SummaryFrame.

(** ** class IncomeFrame *)
Module IncomeFrame.

(** [add_income] (lines 187-205) *)
Definition add_income {N} {R : Runtime N} (entry_cat : string) (entry_amt : option N)
    : M N form_dialog :=
  let cat := str_strip entry_cat in
  if String.eqb cat "" then mret FormInputError else
  match entry_amt with
  | None => mret FormInputError
  | Some amt =>
      if num_le amt num0 then mret FormInputError else
      FinanceManager.add_income cat (VNum amt);;
      mret FormSuccess
  end.

End IncomeFrame.

(** ** class BudgetFrame *)
Module BudgetFrame.

(** [set_budget] (lines 290-308) *)
Definition set_budget {N} {R : Runtime N} (entry_cat : string) (entry_amt : option N)
    : M N form_dialog :=
  let cat := str_strip entry_cat in
  if String.eqb cat "" then mret FormInputError else
  match entry_amt with
  | None => mret FormInputError
  | Some amt =>
      if num_le amt num0 then mret FormInputError else
      FinanceManager.add_budget cat (VNum amt);;
      mret FormSuccess
  end.

End BudgetFrame.

(** ** class GoalFrame *)
Module GoalFrame.

(** [set_goal] (lines 331-349) *)
Definition set_goal {N} {R : Runtime N} (entry_name : string) (entry_amt : option N)
    : M N form_dialog :=
  let name := str_strip entry_name in
  if String.eqb name "" then mret FormInputError else
  match entry_amt with
  | None => mret FormInputError
  | Some amt =>
      if num_le amt num0 then mret FormInputError else
      FinanceManager.add_goal name (VNum amt);;
      mret FormSuccess
  end.

End GoalFrame.

(** ** Vocabulary *)

(** A goal as [add_goal] stores it. *)
Definition is_goal {N} (g : value N) (name : string) (amount : N) : Prop :=
  exists kv, g = VDict kv /\ dict_get "name" kv = Some (VStr name) /\
    dict_get "amount" kv = Some (VNum amount).

(** A record carrying the text category [c]. *)
Definition has_category {N} (item : value N) (c : string) : Prop :=
  exists kv, item = VDict kv /\ dict_get "category" kv = Some (VStr c).

(** A budget as [add_budget] stores it. *)
Definition is_budget {N} (b : value N) (category : string) (amount : N) : Prop :=
  exists kv, b = VDict kv /\ dict_get "category" kv = Some (VStr category) /\
    dict_get "amount" kv = Some (VNum amount).

(** Category normalization on text. *)
Definition normalize {N} {R : Runtime N} (c : string) : string :=
  str_capitalize (str_strip c).

(** A budget whose normalized category differs from [nc]. *)
Definition other_budget {N} {R : Runtime N} (nc : string) (b : value N) : Prop :=
  exists c, has_category b c /\ normalize c <> nc.

(** The worlds after [add_expense], [add_income], [add_budget] and
    [add_goal]. *)
Definition with_expense {N} (category : string) (amount : value N) (w : World N) : World N :=
  let s := set_expenses
             (expenses (data w) ++ [FinanceManager.entry3 category amount (today w)])%list
             (data w) in
  mkWorld s (s :: written w) (today w).

Definition with_income {N} (category : string) (amount : value N) (w : World N) : World N :=
  let s := set_incomes
             (incomes (data w) ++ [FinanceManager.entry3 category amount (today w)])%list
             (data w) in
  mkWorld s (s :: written w) (today w).

Definition with_budget {N} (category : string) (amount : value N) (w : World N) : World N :=
  let s := set_budgets
             (budgets (data w) ++ [FinanceManager.entry2 "category" category amount])%list
             (data w) in
  mkWorld s (s :: written w) (today w).

Definition with_goal {N} (name : string) (amount : value N) (w : World N) : World N :=
  let s := set_goals
             (goals (data w) ++ [FinanceManager.entry2 "name" name amount])%list
             (data w) in
  mkWorld s (s :: written w) (today w).

(** The world once the goal at position [idx] is settled: it has left the
    list and its amount is an expense. *)
Definition settled {N} (idx : nat) (name : string) (a : N) (w : World N) : World N :=
  let s1 := set_goals (delete idx (goals (data w))) (data w) in
  with_expense ("Goal (" +:+ dquote +:+ name +:+ dquote +:+ ")") (VNum a)
    (mkWorld s1 (s1 :: written w) (today w)).

End Py.

(** ** Two interpreters to compute with *)

(** Binary64 arithmetic, rounded to nearest even as CPython's [float]; the
    [int] 0 is read as the float 0.0, which compares and adds as it does.
    [sum] adds from left to right. Text is stripped and capitalized as ASCII
    text is. [repr] of a float, the shortest decimal that reads back as it,
    is not computed: no example prints a number. *)
Definition binary64 : Py.Runtime PrimFloat.float := {|
  Py.num0 := 0%float;
  Py.of_bool := fun b => if b then 1%float else 0%float;
  Py.num_add := fun x y : PrimFloat.float => Ok (PrimFloat.add x y);
  Py.num_sub := fun x y : PrimFloat.float => Ok (PrimFloat.sub x y);
  Py.num_le := PrimFloat.leb;
  Py.num_gt := fun x y : PrimFloat.float => PrimFloat.ltb y x;
  Py.acc := PrimFloat.float;
  Py.sum_start := 0%float;
  Py.sum_add := fun s x : PrimFloat.float => Ok (PrimFloat.add s x);
  Py.sum_end := fun s : PrimFloat.float => s;
  Py.num_repr := fun _ : PrimFloat.float => EmptyString;
  Py.str_strip := strip;
  Py.str_capitalize := capitalize;
  Py.num0_gt := eq_refl
|}.







Definition float_world (s : Py.Store float) : Py.World float :=
  Py.mkWorld s [] "2024-01-02".


(** * Shape, position and sequence *)

(** ** Sums *)

Lemma sum_amounts_ok (l : list value) (acc : Z) :
  Forall amount_ok l ->
  FinanceManager.sum_amounts l acc = Ok (acc + total_amount l).
Proof.
  intros H. revert acc. induction H as [|x l Hx _ IH]; intros acc; simpl.
  - f_equal. lia.
  - destruct Hx as (kv & -> & [Hn | [z Hz]]); simpl.
    + rewrite Hn. simpl. rewrite IH. f_equal. lia.
    + rewrite Hz. simpl. rewrite IH. f_equal. lia.
Qed.

Lemma sum_amounts_snoc (l : list value) (x : value) (t n : Z) :
  FinanceManager.sum_amounts l 0 = Ok t ->
  py_get x "amount" (VInt 0) ≫= as_num = Ok n ->
  FinanceManager.sum_amounts (l ++ [x])%list 0 = Ok (t + n).
Proof.
  generalize 0 at 1 3 as acc. revert t.
  induction l as [|y l IH]; intros t acc Hl Hx; simpl in *.
  - injection Hl as <-.
    destruct (py_get x "amount" (VInt 0)) as [a|e]; simpl in *; [|done].
    rewrite Hx. done.
  - destruct (py_get y "amount" (VInt 0)) as [a|e]; simpl in *; [|done].
    destruct (as_num a) as [m|e]; simpl in *; [|done].
    eauto.
Qed.



(** Queries leave the world as it is, whatever they return. *)
Lemma get_available_funds_pure (w : World) :
  snd (FinanceManager.get_available_funds w) = w.
Proof.
  run. destruct (FinanceManager.sum_amounts (incomes (data w)) 0); simpl; [|done].
  by destruct (FinanceManager.sum_amounts (expenses (data w)) 0).
Qed.

(** Available funds are the difference of the two totals. *)
Lemma get_available_funds_eq (w : World) (i e : Z) :
  FinanceManager.sum_amounts (incomes (data w)) 0 = Ok i ->
  FinanceManager.sum_amounts (expenses (data w)) 0 = Ok e ->
  FinanceManager.get_available_funds w = (Ok (i - e), w).
Proof. intros Hi He. run. by rewrite Hi, He. Qed.

Lemma get_available_funds_Ok (w : World) (f : Z) :
  FinanceManager.get_available_funds w = (Ok f, w) ->
  exists i e,
    FinanceManager.sum_amounts (incomes (data w)) 0 = Ok i /\
    FinanceManager.sum_amounts (expenses (data w)) 0 = Ok e /\ f = i - e.
Proof.
  run. destruct (FinanceManager.sum_amounts (incomes (data w)) 0) as [i|]; simpl; [|done].
  destruct (FinanceManager.sum_amounts (expenses (data w)) 0) as [e|]; simpl; [|done].
  intros [= <-]. eauto.
Qed.

(** ** Totals and available funds *)




(** ** The funds check *)

(** C2. [can_add_expense amount] changes nothing and answers whether
    [amount <= get_available_funds()]; submitting an expense whose amount
    exceeds the available funds ends in an error box and leaves the world,
    hence all four sequences, as it was. *)
Theorem can_add_expense_spec (w : World) (amount : Z) :
  snd (FinanceManager.can_add_expense amount w) = w /\
  forall funds : Z,
    FinanceManager.get_available_funds w = (Ok funds, w) ->
    (exists b : bool,
        FinanceManager.can_add_expense amount w = (Ok b, w) /\
        (b = true <-> amount <= funds)) /\
    (funds < amount ->
     forall entry_cat : string,
       exists d : dialog,
         ExpenseFrame.add_expense entry_cat (Some amount) w = (Ok d, w) /\
         (d = InputError \/ d = InsufficientFunds)).
Proof.
  split.
  - unfold FinanceManager.can_add_expense, mbind, M_bind.
    pose proof (get_available_funds_pure w) as Hp.
    destruct (FinanceManager.get_available_funds w) as [[f|e] w']; simpl in *; by subst.
  - intros funds Hf. split.
    + exists (amount <=? funds).
      unfold FinanceManager.can_add_expense, mbind, M_bind. rewrite Hf. simpl.
      split; [done|]. apply Z.leb_le.
    + intros Hlt entry_cat. unfold ExpenseFrame.add_expense.
      destruct (String.eqb (strip entry_cat) ""); [by eauto|].
      destruct (amount <=? 0); [by eauto|].
      exists InsufficientFunds.
      unfold FinanceManager.can_add_expense, mbind at 1, M_bind at 1, lift. simpl.
      unfold mbind at 1, M_bind at 1, mbind at 1, M_bind at 1. rewrite Hf.
      simpl. replace (amount <=? funds) with false by (symmetry; apply Z.leb_gt; lia).
      simpl. eauto.
Qed.

Lemma can_add_expense_spec_witness :
  let w := world_of (mkStore [income "Salary" 100] [income "Food" 30] [] [] []) in
  exists d : dialog,
    ExpenseFrame.add_expense "Rent" (Some 80) w = (Ok d, w) /\
    (d = InputError \/ d = InsufficientFunds).
Proof.
  intros w.
  destruct (can_add_expense_spec w 80) as [_ H].
  destruct (H 70) as [_ H']; [reflexivity|].
  apply H'. lia.
Defined.

(** ** Goals by position *)

Lemma py_index_ge (n : nat) (i : Z) : Z.of_nat n <= i -> py_index n i = None.
Proof.
  intros H. unfold py_index.
  replace (i <? 0) with false by (symmetry; apply Z.ltb_ge; lia).
  replace (i <? Z.of_nat n) with false by (symmetry; apply Z.ltb_ge; lia).
  by rewrite andb_false_r.
Qed.

Lemma py_index_lt_neg (n : nat) (i : Z) : i < - Z.of_nat n -> py_index n i = None.
Proof.
  intros H. unfold py_index.
  replace (i <? 0) with true by (symmetry; apply Z.ltb_lt; lia).
  replace (0 <=? i + Z.of_nat n) with false by (symmetry; apply Z.leb_gt; lia).
  done.
Qed.

Lemma py_index_in_range (n : nat) (i : Z) :
  0 <= i < Z.of_nat n -> py_index n i = Some (Z.to_nat i).
Proof.
  intros H. unfold py_index.
  replace (i <? 0) with false by (symmetry; apply Z.ltb_ge; lia).
  replace (0 <=? i) with true by (symmetry; apply Z.leb_le; lia).
  replace (i <? Z.of_nat n) with true by (symmetry; apply Z.ltb_lt; lia).
  done.
Qed.

Lemma py_index_negative (n : nat) (i : Z) :
  - Z.of_nat n <= i < 0 -> py_index n i = Some (Z.to_nat (i + Z.of_nat n)).
Proof.
  intros H. unfold py_index.
  replace (i <? 0) with true by (symmetry; apply Z.ltb_lt; lia).
  replace (0 <=? i + Z.of_nat n) with true by (symmetry; apply Z.leb_le; lia).
  replace (i + Z.of_nat n <? Z.of_nat n) with true by (symmetry; apply Z.ltb_lt; lia).
  done.
Qed.

Lemma list_getitem_nat (l : list value) (i : nat) (v : value) :
  l !! i = Some v -> list_getitem l (Z.of_nat i) = Ok v.
Proof.
  intros H. unfold list_getitem.
  rewrite py_index_in_range by (apply lookup_lt_Some in H; lia).
  by rewrite Nat2Z.id, H.
Qed.

(** What [delete_goal] does at a position that Python accepts. *)
Lemma delete_goal_at (w : World) (i : Z) (j : nat) :
  py_index (length (goals (data w))) i = Some j ->
  FinanceManager.delete_goal i w =
    (Ok tt, mkWorld (set_goals (delete j (goals (data w))) (data w))
                    (set_goals (delete j (goals (data w))) (data w) :: written w)
                    (today w)).
Proof. intros H. run. unfold list_delitem. by rewrite H. Qed.

Lemma delete_goal_raise (w : World) (i : Z) :
  py_index (length (goals (data w))) i = None ->
  FinanceManager.delete_goal i w = (Ok tt, w).
Proof. intros H. run. unfold list_delitem. by rewrite H. Qed.

(** A negative index that Python accepts deletes counting from the end. *)
Lemma delete_goal_negative (w : World) (i : Z) :
  - Z.of_nat (length (goals (data w))) <= i < 0 ->
  goals (data (snd (FinanceManager.delete_goal i w))) =
    delete (Z.to_nat (i + Z.of_nat (length (goals (data w))))) (goals (data w)).
Proof. intros H. by rewrite (delete_goal_at w i _ (py_index_negative _ _ H)). Qed.

(** C7 (amended). When [i] is at least the number of goals, or below minus
    that number, [delete_goal i] raises nothing and changes nothing, not even
    the file. When [0 <= i < len(goals)] it removes the goal at position [i]:
    the goals before [i] keep their positions, the later ones move down by
    one, the other sequences are kept, and the result is written. *)
Theorem delete_goal_spec (w : World) (i : Z) :
  let gs := goals (data w) in
  (Z.of_nat (length gs) <= i \/ i < - Z.of_nat (length gs) ->
   FinanceManager.delete_goal i w = (Ok tt, w)) /\
  (0 <= i < Z.of_nat (length gs) ->
   exists w' : World,
     FinanceManager.delete_goal i w = (Ok tt, w') /\
     data w' = set_goals (goals (data w')) (data w) /\
     written w' = data w' :: written w /\
     S (length (goals (data w'))) = length gs /\
     forall j : nat,
       (j < Z.to_nat i -> goals (data w') !! j = gs !! j)%nat /\
       (Z.to_nat i <= j -> goals (data w') !! j = gs !! S j)%nat).
Proof.
  intros gs. split.
  - intros [H|H]; apply delete_goal_raise; [by apply py_index_ge|by apply py_index_lt_neg].
  - intros H. eexists. split; [apply delete_goal_at, py_index_in_range, H|].
    simpl. repeat split.
    + rewrite length_delete; [fold gs; lia|].
      apply lookup_lt_is_Some. fold gs. lia.
    + by apply list_lookup_delete_lt.
    + by apply list_lookup_delete_ge.
Qed.

Lemma delete_goal_spec_witness :
  let w := world_of (mkStore [] [] [] [goal "Car" 5; goal "Trip" 7; goal "Bike" 9] []) in
  FinanceManager.delete_goal 3 w = (Ok tt, w) /\
  exists w' : World,
    FinanceManager.delete_goal 1 w = (Ok tt, w') /\
    data w' = set_goals (goals (data w')) (data w) /\
    written w' = data w' :: written w /\
    S (length (goals (data w'))) = 3%nat /\
    forall j : nat,
      (j < 1 -> goals (data w') !! j = goals (data w) !! j)%nat /\
      (1 <= j -> goals (data w') !! j = goals (data w) !! S j)%nat.
Proof.
  intros w. split.
  - apply (delete_goal_spec w 3). left. simpl. lia.
  - apply (delete_goal_spec w 1). simpl. lia.
Defined.

(** C7 (as stated) fails: -1 is the position of no goal, yet
    [delete_goal (-1)] removes the last goal and writes the file. *)
Lemma delete_goal_minus_one :
  let w := world_of (mkStore [] [] [] [goal "Car" 5; goal "Trip" 7] []) in
  let w' := snd (FinanceManager.delete_goal (-1) w) in
  fst (FinanceManager.delete_goal (-1) w) = Ok tt /\
  goals (data w') = [goal "Car" 5] /\
  written w' = [data w'] /\
  w' <> w.
Proof. repeat split. discriminate. Qed.

(** In range, the manager's [achieve_goal] removes the goal and returns it;
    it checks no funds and records no expense (the check is in
    [SummaryFrame.achieve_goal]). *)
Lemma manager_achieve_goal_in_range (w : World) (i : nat) (g : value) :
  goals (data w) !! i = Some g ->
  FinanceManager.achieve_goal (Z.of_nat i) w =
    (Ok g, mkWorld (set_goals (delete i (goals (data w))) (data w))
                   (set_goals (delete i (goals (data w))) (data w) :: written w)
                   (today w)).
Proof.
  intros H. run. rewrite (list_getitem_nat _ _ _ H). simpl.
  unfold list_delitem.
  rewrite py_index_in_range by (apply lookup_lt_Some in H; lia).
  by rewrite Nat2Z.id.
Qed.

(** C9. [achieve_goal i] with [i] at least the number of goals returns
    [None] and leaves the world as it was: same store, nothing written. *)
Theorem achieve_goal_out_of_range (w : World) (i : Z) :
  Z.of_nat (length (goals (data w))) <= i ->
  FinanceManager.achieve_goal i w = (Ok VNone, w).
Proof.
  intros H. run. unfold list_getitem. by rewrite (py_index_ge _ _ H).
Qed.

Lemma achieve_goal_out_of_range_witness :
  let w := world_of (mkStore [income "Salary" 100] [] [] [goal "Car" 5; goal "Trip" 7] []) in
  FinanceManager.achieve_goal 2 w = (Ok VNone, w).
Proof. intros w. apply (achieve_goal_out_of_range w 2). simpl. lia. Defined.

(** ** Loading the document *)

(** Loading a JSON object never fails and writes nothing; each of the four
    fields is coerced on its own. *)
Lemma init_object (kv : list (string * value)) (d : string) :
  written (FinanceManager.__init__ (Parsed (VDict kv)) d) = [] /\
  forall k : key,
    field k (data (FinanceManager.__init__ (Parsed (VDict kv)) d)) =
    FinanceManager.coerce (from_option id VNone (dict_get (key_name k) kv)).
Proof. split; [done|]. by intros []. Qed.

Lemma init_not_object (doc : value) (d : string) :
  (forall kv, doc <> VDict kv) ->
  FinanceManager.__init__ (Parsed doc) d = reset_world d.
Proof. intros H. destruct doc; try done. by destruct (H kv). Qed.

(** C5. When the document is an object, a field (any of the four) that holds
    a single record becomes the one-element sequence of that record, and a
    field that is absent or holds a scalar becomes the empty sequence; an
    unparsable document gives four empty sequences, written at once. *)
Theorem load_coerces_fields (kv : list (string * value)) (k : key) (d : string) :
  let s := data (FinanceManager.__init__ (Parsed (VDict kv)) d) in
  (forall r, dict_get (key_name k) kv = Some (VDict r) -> field k s = [VDict r]) /\
  (forall v, dict_get (key_name k) kv = Some v -> scalar v -> field k s = []) /\
  (dict_get (key_name k) kv = None -> field k s = []) /\
  FinanceManager.__init__ Unparsable d = mkWorld empty_store [empty_store] d.
Proof.
  intros s. subst s. destruct (init_object kv d) as [_ H]. rewrite H.
  repeat split.
  - by intros r ->.
  - intros v -> Hv. by destruct v.
  - by intros ->.
Qed.

Lemma load_coerces_fields_witness :
  let kv := [("incomes", VList [income "Salary" 100]); ("budgets", VInt 3);
             ("goals", goal "Trip" 50)] in
  let s := data (FinanceManager.__init__ (Parsed (VDict kv)) "2024-01-02") in
  field Goals s = [goal "Trip" 50] /\ field Budgets s = [] /\ field Expenses s = [].
Proof.
  intros kv s.
  pose proof (load_coerces_fields kv Goals "2024-01-02") as (Hg & _).
  pose proof (load_coerces_fields kv Budgets "2024-01-02") as (_ & Hb & _).
  pose proof (load_coerces_fields kv Expenses "2024-01-02") as (_ & _ & He & _).
  split; [|split].
  - apply Hg. reflexivity.
  - apply (Hb (VInt 3)); [reflexivity|exact I].
  - apply He. reflexivity.
Defined.

(** C6 (amended). A document that cannot be parsed, or whose top level is
    not an object, is replaced by four empty sequences, which are written at
    once. A parsed object is never reset and nothing is written while
    loading: every list-shaped field is kept as it is, and each field that is
    not list-shaped is repaired on its own (a single record is wrapped into a
    one-element sequence, anything else becomes the empty sequence). *)
Theorem load_malformed (d : string) :
  FinanceManager.__init__ Unparsable d = reset_world d /\
  (forall doc, (forall kv, doc <> VDict kv) ->
     FinanceManager.__init__ (Parsed doc) d = reset_world d) /\
  (forall kv,
     let w := FinanceManager.__init__ (Parsed (VDict kv)) d in
     written w = [] /\
     forall k,
       (forall l, dict_get (key_name k) kv = Some (VList l) -> field k (data w) = l) /\
       (~ list_shaped kv k ->
        field k (data w) =
        match dict_get (key_name k) kv with
        | Some (VDict r) => [VDict r]
        | _ => []
        end)).
Proof.
  split; [done|]. split; [intros doc H; by apply init_not_object|].
  intros kv w. subst w. destruct (init_object kv d) as [Hw H].
  split; [done|]. intros k. rewrite H. split.
  - by intros l ->.
  - intros Hn. destruct (dict_get (key_name k) kv) as [[]|] eqn:E; try done.
    destruct Hn. by eexists.
Qed.

Lemma load_malformed_witness :
  let kv := [("incomes", VList [income "Salary" 100]); ("goals", goal "Trip" 50)] in
  let w := FinanceManager.__init__ (Parsed (VDict kv)) "2024-01-02" in
  FinanceManager.__init__ (Parsed (VList [])) "2024-01-02" = reset_world "2024-01-02" /\
  field Incomes (data w) = [income "Salary" 100] /\
  field Goals (data w) = [goal "Trip" 50] /\
  field Budgets (data w) = [].
Proof.
  intros kv w.
  destruct (load_malformed "2024-01-02") as (_ & Hdoc & Hobj).
  destruct (Hobj kv) as [_ Hk].
  split; [|split; [|split]].
  - apply Hdoc. discriminate.
  - apply (Hk Incomes). reflexivity.
  - apply (Hk Goals). intros [l Hl]. discriminate Hl.
  - apply (Hk Budgets). intros [l Hl]. discriminate Hl.
Defined.

(** C6 (as stated) fails: with [goals] holding a single record, the document
    is malformed in the claim's sense, yet loading keeps the incomes, wraps
    the goal and writes nothing. *)
Lemma load_repairs_one_field :
  let kv := [("incomes", VList [income "Salary" 100]); ("expenses", VList []);
             ("budgets", VList []); ("goals", goal "Trip" 50)] in
  let w := FinanceManager.__init__ (Parsed (VDict kv)) "2024-01-02" in
  ~ list_shaped kv Goals /\
  w <> reset_world "2024-01-02" /\
  data w = mkStore [income "Salary" 100] [] [] [goal "Trip" 50] [] /\
  written w = [].
Proof.
  repeat split.
  - intros [l Hl]. discriminate Hl.
  - discriminate.
Qed.

(** ** Categories *)

Lemma existsb_py_eq_str (c : string) (acc : list string) :
  existsb (FinanceManager.py_eq (VStr c)) (VStr <$> acc) = bool_decide (c ∈ acc).
Proof.
  induction acc as [|a acc IH]; csimpl; [done|].
  rewrite IH. destruct (String.eqb_spec c a) as [->|Hne]; simpl.
  - symmetry. apply bool_decide_eq_true_2. left.
  - apply bool_decide_ext. rewrite elem_of_cons. split; [by right|by intros [?|?]].
Qed.

(** Adding the categories of well-formed records to a set of strings. *)
Lemma add_categories_strs (l : list value) (acc : list string) :
  Forall (fun item => exists c, has_category item c) l ->
  exists acc' : list string,
    FinanceManager.add_categories l (VStr <$> acc) = Ok (VStr <$> acc') /\
    (NoDup acc -> NoDup acc') /\
    forall c, c ∈ acc' <-> c ∈ acc \/ exists item, item ∈ l /\ has_category item c.
Proof.
  intros H. revert acc. induction H as [|x l (c & kv & -> & Hc) _ IH]; intros acc.
  - exists acc. split; [done|]. split; [done|]. intros c. split; [auto|].
    intros [?|(item & Hi & _)]; [done|]. by apply elem_of_nil in Hi.
  - simpl. rewrite Hc. simpl. unfold FinanceManager.set_add. simpl.
    rewrite existsb_py_eq_str. destruct (bool_decide (c ∈ acc)) eqn:E; simpl.
    + apply bool_decide_eq_true in E.
      destruct (IH acc) as (acc' & -> & Hnd & Hin).
      exists acc'. split; [done|]. split; [done|]. intros c'. rewrite Hin. split.
      * intros [?|(item & Hi & Hcat)]; [by left|].
        right. exists item. split; [by right|done].
      * intros [?|(item & [->|Hi]%elem_of_cons & Hcat)]; [by left| |by eauto].
        destruct Hcat as (kv' & [= <-] & Hc'). rewrite Hc in Hc'.
        injection Hc' as <-. by left.
    + apply bool_decide_eq_false in E.
      destruct (IH (acc ++ [c])%list) as (acc' & Heq & Hnd & Hin).
      exists acc'. rewrite fmap_app in Heq. split; [done|]. split.
      * intros Hacc. apply Hnd. apply NoDup_app. split; [done|].
        split; [|apply NoDup_singleton].
        intros y Hy ->%list_elem_of_singleton. done.
      * intros c'. rewrite Hin, elem_of_app, list_elem_of_singleton. split.
        -- intros [[?| ->]|(item & Hi & Hcat)]; [by left| |].
           ++ right. exists (VDict kv). split; [left|]. by exists kv.
           ++ right. exists item. split; [by right|done].
        -- intros [?|(item & [->|Hi]%elem_of_cons & Hcat)]; [by left; left| |by eauto].
           destruct Hcat as (kv' & [= <-] & Hc'). rewrite Hc in Hc'.
           injection Hc' as <-. left. by right.
Qed.

Lemma strs_of_fmap (l : list string) : FinanceManager.strs_of (VStr <$> l) = Some l.
Proof. induction l as [|a l IH]; csimpl; [done|]. by rewrite IH. Qed.

Lemma sorted_strs (l : list string) :
  FinanceManager.sorted (VStr <$> l) = Ok (VStr <$> merge_sort String.le l).
Proof.
  destruct l as [|a [|b l]]; [done..|].
  change (FinanceManager.sorted (VStr <$> a :: b :: l))
    with (match FinanceManager.strs_of (VStr <$> a :: b :: l) with
          | Some ss => Ok (VStr <$> merge_sort String.le ss)
          | None =>
              if forallb FinanceManager.is_num (VStr <$> a :: b :: l)
              then Ok (merge_sort FinanceManager.num_le (VStr <$> a :: b :: l))
              else Raise TypeError
          end).
  by rewrite strs_of_fmap.
Qed.

(** C8. When every income and expense is a record with a text category,
    [categories()] returns, without changing anything, a list of strings that
    is sorted ascending, has no duplicates, and holds exactly the stored
    (raw) categories of the incomes and expenses. On incomes
    [[{category: food}]] and expenses [[{category: Food}]] it returns
    [[Food, food]]. *)
Theorem categories_spec :
  (forall w : World,
     let items := (incomes (data w) ++ expenses (data w))%list in
     Forall (fun item => exists c, has_category item c) items ->
     exists cs : list string,
       FinanceManager.categories w = (Ok (VStr <$> cs), w) /\
       Sorted String.le cs /\ NoDup cs /\
       forall c, c ∈ cs <-> exists item, item ∈ items /\ has_category item c) /\
  (forall w : World,
     incomes (data w) = [VDict [("category", VStr "food")]] ->
     expenses (data w) = [VDict [("category", VStr "Food")]] ->
     FinanceManager.categories w = (Ok [VStr "Food"; VStr "food"], w)).
Proof.
  split.
  - intros w items H. subst items. apply Forall_app in H as [Hi He].
    destruct (add_categories_strs _ [] Hi) as (a1 & E1 & N1 & I1).
    destruct (add_categories_strs _ a1 He) as (a2 & E2 & N2 & I2).
    exists (merge_sort String.le a2).
    unfold FinanceManager.categories, mbind, M_bind, gets, lift.
    change (@nil value) with (VStr <$> @nil string). rewrite E1, E2, sorted_strs.
    split; [done|]. split; [apply Sorted_merge_sort; apply _|].
    split.
    + rewrite merge_sort_Permutation. apply N2, N1, NoDup_nil_2.
    + intros c. rewrite merge_sort_Permutation, I2, I1. split.
      * intros [[Hn|(item & Hin & Hc)]|(item & Hin & Hc)].
        -- by apply elem_of_nil in Hn.
        -- exists item. split; [|done]. apply elem_of_app. by left.
        -- exists item. split; [|done]. apply elem_of_app. by right.
      * intros (item & [Hin|Hin]%elem_of_app & Hc); [left; right|right]; eauto.
  - intros [s wr d] Hi He. simpl in *.
    unfold FinanceManager.categories, mbind, M_bind, gets, lift. simpl.
    rewrite Hi, He. vm_compute. reflexivity.
Qed.

Lemma categories_spec_witness :
  let w := world_of (mkStore [VDict [("category", VStr "food")]]
                             [VDict [("category", VStr "Food")]] [] [] []) in
  FinanceManager.categories w = (Ok [VStr "Food"; VStr "food"], w) /\
  exists cs : list string,
    FinanceManager.categories w = (Ok (VStr <$> cs), w) /\
    Sorted String.le cs /\ NoDup cs /\
    forall c, c ∈ cs <->
      exists item, item ∈ (incomes (data w) ++ expenses (data w))%list /\
                   has_category item c.
Proof.
  intros w. destruct categories_spec as [Hgen Hex]. split.
  - apply Hex; reflexivity.
  - apply Hgen. repeat constructor; eexists; eexists; (split; [reflexivity|]); reflexivity.
Defined.

(** ** The budget check of the expense form *)

Lemma first_budget_skip (nc : string) (pre rest : list value) :
  Forall (other_budget nc) pre ->
  ExpenseFrame.first_budget (pre ++ rest)%list nc = ExpenseFrame.first_budget rest nc.
Proof.
  induction 1 as [|b pre (c & (kv & -> & Hc) & Hne) _ IH]; [done|].
  simpl. rewrite Hc. simpl. fold (normalize c).
  by destruct (String.eqb_spec (normalize c) nc).
Qed.

Lemma first_budget_hit (nc : string) (b : value) (c : string) (B : Z) (post : list value) :
  is_budget b c B -> normalize c = nc ->
  ExpenseFrame.first_budget (b :: post) nc = Ok (VInt B).
Proof.
  intros (kv & -> & Hc & Ha) Hn. simpl. rewrite Hc. simpl. fold (normalize c).
  rewrite Hn, String.eqb_refl. by rewrite Ha.
Qed.

Lemma first_budget_none (nc : string) (bs : list value) :
  Forall (other_budget nc) bs -> ExpenseFrame.first_budget bs nc = Ok (VInt 0).
Proof.
  intros H. rewrite <- (app_nil_r bs). by rewrite first_budget_skip.
Qed.

Lemma add_expense_at (w : World) (category : string) (amount : value) :
  FinanceManager.add_expense category amount w = (Ok tt, with_expense category amount w).
Proof. done. Qed.

(** The expense form once the input and the funds check have passed. *)
Lemma add_expense_checked (w : World) (c : string) (a funds : Z) :
  strip c <> "" -> 0 < a ->
  FinanceManager.get_available_funds w = (Ok funds, w) -> a <= funds ->
  ExpenseFrame.add_expense c (Some a) w =
  match ExpenseFrame.first_budget (budgets (data w)) (normalize (strip c)) ≫= as_num with
  | Ok B =>
      if 0 <? B then
        match FinanceManager.sum_category (normalize (strip c)) (expenses (data w)) 0 with
        | Ok spent =>
            if B <? spent + a then (Ok BudgetExceeded, w)
            else (Ok ExpenseAdded, with_expense (strip c) (VInt a) w)
        | Raise e => (Raise e, w)
        end
      else (Ok ExpenseAdded, with_expense (strip c) (VInt a) w)
  | Raise e => (Raise e, w)
  end.
Proof.
  intros Hc Ha Hf Hle. unfold ExpenseFrame.add_expense.
  destruct (String.eqb_spec (strip c) ""); [done|].
  replace (a <=? 0) with false by (symmetry; apply Z.leb_gt; lia).
  unfold FinanceManager.can_add_expense, mbind at 1, M_bind at 1, lift. simpl.
  unfold mbind at 1, M_bind at 1, mbind at 1, M_bind at 1. rewrite Hf. simpl.
  replace (a <=? funds) with true by (symmetry; apply Z.leb_le; lia). simpl.
  fold (normalize (strip c)).
  unfold mbind at 1, M_bind at 1, gets. simpl.
  unfold mbind at 1, M_bind at 1.
  destruct (ExpenseFrame.first_budget (budgets (data w)) (normalize (strip c)) ≫= as_num)
    as [B|e]; [|done].
  destruct (0 <? B).
  - run. destruct (FinanceManager.sum_category _ _ 0) as [spent|e]; simpl; [|done].
    by destruct (B <? spent + a).
  - done.
Qed.

(** ** Achieving one goal *)

Lemma is_goal_fields (g : value) (name : string) (a : Z) :
  is_goal g name a ->
  SummaryFrame.goal_name g = VStr name /\ SummaryFrame.goal_amt g = VInt a.
Proof. intros (kv & -> & Hn & Ha). simpl. by rewrite Hn, Ha. Qed.

Lemma achieve_goal_run (w : World) (idx : nat) (g : value) (name : string) (a funds : Z) :
  goals (data w) !! idx = Some g -> is_goal g name a ->
  FinanceManager.get_available_funds w = (Ok funds, w) ->
  SummaryFrame.achieve_goal (Z.of_nat idx) w =
  if funds <? a then (Ok (InsufficientBalance (VStr name)), w)
  else (Ok (GoalAchieved (VStr name)), settled idx name a w).
Proof.
  intros Hg Hgoal Hf. destruct (is_goal_fields _ _ _ Hgoal) as [Hn Ha].
  unfold SummaryFrame.achieve_goal, mbind at 1, M_bind at 1, gets. simpl.
  replace (Z.of_nat idx <? 0) with false by (symmetry; apply Z.ltb_ge; lia).
  replace (Z.of_nat (length (goals (data w))) <=? Z.of_nat idx) with false
    by (symmetry; apply Z.leb_gt; apply lookup_lt_Some in Hg; lia).
  simpl. unfold mbind at 1, M_bind at 1, lift at 1.
  rewrite (list_getitem_nat _ _ _ Hg), Hn, Ha.
  unfold mbind at 1, M_bind at 1. rewrite Hf.
  unfold mbind at 1, M_bind at 1, lift at 1. simpl.
  destruct (funds <? a); [done|].
  unfold mbind at 1, M_bind at 1.
  rewrite (delete_goal_at w (Z.of_nat idx) idx).
  - unfold mbind at 1, M_bind at 1. by rewrite add_expense_at.
  - rewrite py_index_in_range by (apply lookup_lt_Some in Hg; lia).
    by rewrite Nat2Z.id.
Qed.

(** ** Achieving all goals *)

(** [delete_goal] never raises. *)
Lemma delete_goal_total (w : World) (i : Z) :
  FinanceManager.delete_goal i w = (Ok tt, snd (FinanceManager.delete_goal i w)).
Proof.
  destruct (py_index (length (goals (data w))) i) as [j|] eqn:E.
  - by rewrite (delete_goal_at w i j E).
  - by rewrite (delete_goal_raise w i E).
Qed.

(** One turn of the loop on a well-formed goal. *)
Lemma achieve_loop_cons (g : value) (name : string) (a : Z) (gs : list value)
    (balance : Z) (achieved not_achieved : list value) (w : World) :
  is_goal g name a ->
  SummaryFrame.achieve_loop (g :: gs) balance achieved not_achieved w =
  if a <=? balance then
    SummaryFrame.achieve_loop gs (balance - a) (achieved ++ [VStr name])%list not_achieved
      (with_expense (SummaryFrame.expense_category (VStr name)) (VInt a)
         (snd (FinanceManager.delete_goal 0 w)))
  else
    SummaryFrame.achieve_loop gs balance achieved (not_achieved ++ [VStr name])%list w.
Proof.
  intros Hg. destruct (is_goal_fields _ _ _ Hg) as [Hn Ha].
  cbn [SummaryFrame.achieve_loop]. rewrite Hn, Ha.
  unfold mbind at 1, M_bind at 1, lift at 1. cbn [as_num].
  destruct (a <=? balance); [|done].
  unfold mbind at 1, M_bind at 1. rewrite delete_goal_total.
  unfold mbind at 1, M_bind at 1. by rewrite add_expense_at.
Qed.

(** What the loop does: the names follow the greedy rule and one expense is
    appended per achieved goal, but the goals removed are the first [k] of
    the list, [k] being the number of achieved goals. *)
Lemma achieve_loop_run (gs : list value) :
  forall (balance : Z) (achieved not_achieved : list value) (w : World),
    Forall well_formed_goal gs ->
    (length gs <= length (goals (data w)))%nat ->
    let r := SummaryFrame.achieve_loop gs balance achieved not_achieved w in
    let p := greedy gs balance in
    fst r = Ok ((achieved ++ (name_of <$> fst p))%list,
                (not_achieved ++ (name_of <$> snd p))%list) /\
    goals (data (snd r)) = drop (length (fst p)) (goals (data w)) /\
    expenses (data (snd r)) = (expenses (data w) ++ (settlement (today w) <$> fst p))%list /\
    incomes (data (snd r)) = incomes (data w) /\
    budgets (data (snd r)) = budgets (data w) /\
    today (snd r) = today w.
Proof.
  induction gs as [|g gs IH]; intros balance achieved not_achieved w Hwf Hlen r p;
    subst r p.
  - simpl. by rewrite !app_nil_r.
  - apply Forall_cons in Hwf as [(name & a & Hg) Hwf].
    rewrite (achieve_loop_cons g name a gs _ _ _ _ Hg).
    destruct Hg as (kv & -> & Hn & Ha).
    assert (Ham : amount_of (VDict kv) = a) by (simpl; by rewrite Ha).
    assert (Hno : name_of (VDict kv) = VStr name) by (simpl; by rewrite Hn).
    cbn [greedy]. rewrite Ham.
    destruct (a <=? balance).
    + destruct (goals (data w)) as [|g0 cur] eqn:Hcur; [simpl in Hlen; lia|].
      rewrite (delete_goal_at w 0 0%nat) by (by rewrite Hcur).
      match goal with
      | |- context [SummaryFrame.achieve_loop gs ?b ?x ?y ?w1] =>
          destruct (IH b x y w1 Hwf) as (E1 & E2 & E3 & E4 & E5 & E6)
      end.
      { simpl. rewrite Hcur. simpl in *. lia. }
      rewrite E1, E2, E3, E4, E5, E6. csimpl.
      rewrite Hcur, Hn. unfold settlement at 2. rewrite Hno, Ham. csimpl.
      by rewrite <- !app_assoc.
    + destruct (IH balance achieved (not_achieved ++ [VStr name])%list w Hwf)
        as (E1 & E2 & E3 & E4 & E5 & E6); [simpl in Hlen; lia|].
      rewrite E1, E2, E3, E4, E5, E6. csimpl.
      rewrite Hn. by rewrite <- !app_assoc.
Qed.

(** [achieve_all_goals] on well-formed goals: the result of the loop started
    on the whole goal list with the available funds. *)
Lemma achieve_all_goals_run (w : World) (funds : Z) :
  Forall well_formed_goal (goals (data w)) ->
  FinanceManager.get_available_funds w = (Ok funds, w) ->
  let r := SummaryFrame.achieve_all_goals w in
  let p := greedy (goals (data w)) funds in
  fst r = Ok (name_of <$> fst p, name_of <$> snd p) /\
  goals (data (snd r)) = drop (length (fst p)) (goals (data w)) /\
  expenses (data (snd r)) = (expenses (data w) ++ (settlement (today w) <$> fst p))%list.
Proof.
  intros Hwf Hf r p. subst r p.
  assert (E : SummaryFrame.achieve_all_goals w =
              SummaryFrame.achieve_loop (goals (data w)) funds [] [] w).
  { unfold SummaryFrame.achieve_all_goals, mbind, M_bind, gets. by rewrite Hf. }
  rewrite E.
  by destruct (achieve_loop_run (goals (data w)) funds [] [] w Hwf) as (E1 & E2 & E3 & _).
Qed.

(** The case of the specification: funds 60, goals of 50 then 30. *)
Example achieve_all_goals_in_order :
  let w := world_of (mkStore [income "Salary" 60] [] [] [goal "G1" 50; goal "G2" 30] []) in
  let r := SummaryFrame.achieve_all_goals w in
  fst r = Ok ([VStr "G1"], [VStr "G2"]) /\
  goals (data (snd r)) = [goal "G2" 30] /\
  length (expenses (data (snd r))) = 1%nat.
Proof. repeat split. Qed.

(** C1 (the code at a failing input). Funds are 60 and the goals are Car
    (100) then Trip (30). Car fails the check and Trip passes it, and one
    expense is recorded for Trip; but the goal removed from the list is Car,
    and Trip stays in it. *)
Theorem achieve_all_goals_removes_wrong_goal :
  let w := world_of (mkStore [income "Salary" 60] [] [] [goal "Car" 100; goal "Trip" 30] []) in
  let r := SummaryFrame.achieve_all_goals w in
  FinanceManager.get_available_funds w = (Ok 60, w) /\
  fst r = Ok ([VStr "Trip"], [VStr "Car"]) /\
  goals (data (snd r)) = [goal "Trip" 30] /\
  expenses (data (snd r)) =
    [VDict [("category", VStr ("Goal (" +:+ dquote +:+ "Trip" +:+ dquote +:+ ")"));
            ("amount", VInt 30); ("date", VStr "2024-01-02")]].
Proof. repeat split. Qed.

(** * Further properties of the code *)

(** ** Saving and loading *)

Lemma filter_reserved (l : list (string * value)) :
  Forall (fun p => FinanceManager.is_key (fst p) = false) l ->
  filter (fun p => negb (FinanceManager.is_key (fst p))) l = l.
Proof.
  induction 1 as [|p l Hp _ IH]; [done|].
  rewrite filter_cons_True by (by rewrite Hp). by rewrite IH.
Qed.

Lemma filter_reserved_idemp (l : list (string * value)) :
  Forall (fun p => FinanceManager.is_key (fst p) = false)
         (filter (fun p => negb (FinanceManager.is_key (fst p))) l).
Proof.
  apply Forall_forall. intros p [Hp _]%list_elem_of_filter.
  by destruct (FinanceManager.is_key p.1).
Qed.

Lemma load_document_of (s : Store) :
  no_reserved_key s -> FinanceManager.load (document_of s) = Ok s.
Proof.
  intros H. destruct s as [i e b g o]. unfold no_reserved_key in H. simpl in *.
  rewrite !filter_cons_False by (simpl; tauto).
  by rewrite (filter_reserved o H).
Qed.

(** X1. Loading the document that holds a store (its four sequences and its
    further keys, none of them named like the four) gives back exactly that
    store and writes nothing. *)
Theorem save_load_round_trip (s : Store) (d : string) :
  no_reserved_key s ->
  FinanceManager.__init__ (Parsed (document_of s)) d = mkWorld s [] d.
Proof.
  intros H. unfold FinanceManager.__init__, FinanceManager.read.
  change (Ok (document_of s) ≫= FinanceManager.load)
    with (FinanceManager.load (document_of s)).
  by rewrite (load_document_of s H).
Qed.

Lemma save_load_round_trip_witness :
  let s := mkStore [income "Salary" 100] [income "Food" 30]
                   [VDict [("category", VStr "Food"); ("amount", VInt 90)]]
                   [goal "Trip" 50] [("version", VInt 2)] in
  FinanceManager.__init__ (Parsed (document_of s)) "2024-01-02" =
    mkWorld s [] "2024-01-02".
Proof.
  intros s. apply (save_load_round_trip s "2024-01-02").
  repeat constructor.
Defined.

(** X2. Loading is a repair that needs no second pass: whatever JSON object
    is loaded, the document of the resulting store loads to that same store. *)
Theorem load_is_stable (kv : list (string * value)) (d : string) :
  let s := data (FinanceManager.__init__ (Parsed (VDict kv)) d) in
  FinanceManager.__init__ (Parsed (document_of s)) d = mkWorld s [] d.
Proof.
  intros s. unfold FinanceManager.__init__, FinanceManager.read.
  change (Ok (document_of s) ≫= FinanceManager.load)
    with (FinanceManager.load (document_of s)).
  rewrite (load_document_of s); [done|].
  apply filter_reserved_idemp.
Qed.

(** ** The manager's mutators *)

Lemma add_income_at (w : World) (category : string) (amount : value) :
  FinanceManager.add_income category amount w = (Ok tt, with_income category amount w).
Proof. done. Qed.

Lemma add_budget_at (w : World) (category : string) (amount : value) :
  FinanceManager.add_budget category amount w = (Ok tt, with_budget category amount w).
Proof. done. Qed.

Lemma add_goal_at (w : World) (name : string) (amount : value) :
  FinanceManager.add_goal name amount w = (Ok tt, with_goal name amount w).
Proof. done. Qed.

(** Available funds read two of the four sequences only. *)
Lemma funds_same_ledger (w w' : World) (r : res Z) :
  incomes (data w') = incomes (data w) ->
  expenses (data w') = expenses (data w) ->
  FinanceManager.get_available_funds w = (r, w) ->
  FinanceManager.get_available_funds w' = (r, w').
Proof.
  intros Hi He. run. rewrite Hi, He.
  destruct (FinanceManager.sum_amounts (incomes (data w)) 0); simpl; [|by intros [= <-]].
  destruct (FinanceManager.sum_amounts (expenses (data w)) 0); simpl; by intros [= <-].
Qed.

(** ** Goals by position, continued *)

Lemma set_goals_same (s : Store) : set_goals (goals s) s = s.
Proof. by destruct s. Qed.

(** X5. A goal just added sits at the last position: deleting at the old
    length, or at -1, gives back the store as it was before the goal was
    added, and the manager's [achieve_goal] at the old length returns the
    record that was added. *)
Theorem add_goal_then_remove (w : World) (name : string) (amount : value) :
  let n := Z.of_nat (length (goals (data w))) in
  let w1 := snd (FinanceManager.add_goal name amount w) in
  data (snd (FinanceManager.delete_goal n w1)) = data w /\
  data (snd (FinanceManager.delete_goal (-1) w1)) = data w /\
  fst (FinanceManager.achieve_goal n w1) =
    Ok (VDict [("name", VStr name); ("amount", amount)]) /\
  data (snd (FinanceManager.achieve_goal n w1)) = data w.
Proof.
  intros n w1. subst n w1. rewrite add_goal_at.
  set (gs := goals (data w)).
  assert (Hlen : length (goals (data (with_goal name amount w))) = S (length gs))
    by (simpl; rewrite length_app; simpl; fold gs; lia).
  assert (Hlast : goals (data (with_goal name amount w)) !! length gs =
                  Some (FinanceManager.entry2 "name" name amount)).
  { simpl. fold gs. by rewrite lookup_app_r, Nat.sub_diag by lia. }
  assert (Hdel : set_goals (delete (length gs) (goals (data (with_goal name amount w))))
                   (data (with_goal name amount w)) = data w).
  { simpl. fold gs. rewrite (delete_middle gs []), app_nil_r.
    unfold set_goals. simpl. subst gs. by destruct (data w). }
  cbn [snd]. repeat split.
  - rewrite (delete_goal_at _ _ (length gs)); [done|].
    rewrite Hlen. rewrite py_index_in_range by lia. by rewrite Nat2Z.id.
  - rewrite (delete_goal_at _ _ (length gs)); [done|].
    rewrite Hlen. rewrite py_index_negative by lia. f_equal. lia.
  - by rewrite (manager_achieve_goal_in_range _ _ _ Hlast).
  - by rewrite (manager_achieve_goal_in_range _ _ _ Hlast).
Qed.

(** X6. The manager's [achieve_goal] at a position that holds a goal
    returns that goal and removes it, and does nothing else: it compares no
    amount with the funds and records no expense, so the available funds are
    what they were. *)
Theorem manager_achieve_goal_unchecked (w : World) (i : nat) (g : value) (r : res Z) :
  goals (data w) !! i = Some g ->
  FinanceManager.get_available_funds w = (r, w) ->
  FinanceManager.achieve_goal (Z.of_nat i) w = (Ok g, without_goal i w) /\
  expenses (data (without_goal i w)) = expenses (data w) /\
  FinanceManager.get_available_funds (without_goal i w) = (r, without_goal i w).
Proof.
  intros Hg Hf. split; [by apply manager_achieve_goal_in_range|]. split; [done|].
  by apply (funds_same_ledger w).
Qed.

Lemma manager_achieve_goal_unchecked_witness :
  let w := world_of (mkStore [income "Salary" 60] [] [] [goal "Car" 100] []) in
  FinanceManager.achieve_goal 0 w = (Ok (goal "Car" 100), without_goal 0 w) /\
  expenses (data (without_goal 0 w)) = [] /\
  FinanceManager.get_available_funds (without_goal 0 w) = (Ok 60, without_goal 0 w).
Proof.
  intros w. apply (manager_achieve_goal_unchecked w 0 (goal "Car" 100) (Ok 60));
    reflexivity.
Defined.

(** X7. A negative index from [-len(goals)] to [-1] is accepted by
    [delete_goal]: it removes the goal at that distance from the end, and
    writes the result. *)
Theorem delete_goal_from_the_end (w : World) (i : Z) :
  - Z.of_nat (length (goals (data w))) <= i < 0 ->
  FinanceManager.delete_goal i w =
    (Ok tt, without_goal (Z.to_nat (i + Z.of_nat (length (goals (data w))))) w).
Proof. intros H. by rewrite (delete_goal_at w i _ (py_index_negative _ _ H)). Qed.

Lemma delete_goal_from_the_end_witness :
  let w := world_of (mkStore [] [] [] [goal "Car" 5; goal "Trip" 7; goal "Bike" 9] []) in
  FinanceManager.delete_goal (-2) w = (Ok tt, without_goal 1 w).
Proof. intros w. apply (delete_goal_from_the_end w (-2)). simpl. lia. Defined.

(** ** What a callback can do to the world *)

Lemma income_form_cases (w : World) (c : string) (amt : option Z) :
  IncomeFrame.add_income c amt w = (Ok FormInputError, w) \/
  exists a, 0 < a /\ strip c <> "" /\
    IncomeFrame.add_income c amt w = (Ok FormSuccess, with_income (strip c) (VInt a) w).
Proof.
  unfold IncomeFrame.add_income.
  destruct (String.eqb_spec (strip c) ""); [by left|].
  destruct amt as [a|]; [|by left].
  destruct (Z.leb_spec a 0); [by left|]. right. by exists a.
Qed.

Lemma budget_form_cases (w : World) (c : string) (amt : option Z) :
  BudgetFrame.set_budget c amt w = (Ok FormInputError, w) \/
  exists a, 0 < a /\ strip c <> "" /\
    BudgetFrame.set_budget c amt w = (Ok FormSuccess, with_budget (strip c) (VInt a) w).
Proof.
  unfold BudgetFrame.set_budget.
  destruct (String.eqb_spec (strip c) ""); [by left|].
  destruct amt as [a|]; [|by left].
  destruct (Z.leb_spec a 0); [by left|]. right. by exists a.
Qed.

Lemma goal_form_cases (w : World) (c : string) (amt : option Z) :
  GoalFrame.set_goal c amt w = (Ok FormInputError, w) \/
  exists a, 0 < a /\ strip c <> "" /\
    GoalFrame.set_goal c amt w = (Ok FormSuccess, with_goal (strip c) (VInt a) w).
Proof.
  unfold GoalFrame.set_goal.
  destruct (String.eqb_spec (strip c) ""); [by left|].
  destruct amt as [a|]; [|by left].
  destruct (Z.leb_spec a 0); [by left|]. right. by exists a.
Qed.

Lemma get_available_funds_run (w : World) :
  FinanceManager.get_available_funds w = (fst (FinanceManager.get_available_funds w), w).
Proof.
  pose proof (get_available_funds_pure w) as H.
  destruct (FinanceManager.get_available_funds w) as [r w']. simpl in *. by subst.
Qed.

Lemma add_expense_invalid (w : World) (c : string) (amt : option Z) :
  strip c = "" \/ amt = None \/ (exists a, amt = Some a /\ a <= 0) ->
  ExpenseFrame.add_expense c amt w = (Ok InputError, w).
Proof.
  intros H. unfold ExpenseFrame.add_expense.
  destruct (String.eqb_spec (strip c) "") as [E|E]; [done|].
  destruct H as [H|[->|(a & -> & Ha)]]; [done|done|].
  by replace (a <=? 0) with true by (symmetry; apply Z.leb_le; lia).
Qed.

Lemma add_expense_unfunded (w : World) (c : string) (a : Z) :
  strip c <> "" -> 0 < a ->
  ExpenseFrame.add_expense c (Some a) w =
  match fst (FinanceManager.get_available_funds w) with
  | Ok f =>
      if a <=? f then ExpenseFrame.add_expense c (Some a) w
      else (Ok InsufficientFunds, w)
  | Raise e => (Raise e, w)
  end.
Proof.
  intros E Ha. pose proof (get_available_funds_run w) as Hf.
  destruct (fst (FinanceManager.get_available_funds w)) as [f|e].
  - destruct (Z.leb_spec a f) as [Hle|Hgt]; [done|].
    unfold ExpenseFrame.add_expense.
    destruct (String.eqb_spec (strip c) ""); [done|].
    replace (a <=? 0) with false by (symmetry; apply Z.leb_gt; lia).
    unfold FinanceManager.can_add_expense, mbind at 1, M_bind at 1, lift. simpl.
    unfold mbind at 1, M_bind at 1, mbind at 1, M_bind at 1. rewrite Hf. simpl.
    by replace (a <=? f) with false by (symmetry; apply Z.leb_gt; lia).
  - unfold ExpenseFrame.add_expense.
    destruct (String.eqb_spec (strip c) ""); [done|].
    replace (a <=? 0) with false by (symmetry; apply Z.leb_gt; lia).
    unfold FinanceManager.can_add_expense, mbind at 1, M_bind at 1, lift. simpl.
    unfold mbind at 1, M_bind at 1, mbind at 1, M_bind at 1. by rewrite Hf.
Qed.

(** The expense form either refuses and leaves the world as it is, or
    appends the expense, and it appends only what the funds cover. *)
Lemma expense_form_cases (w : World) (c : string) (amt : option Z) :
  (snd (ExpenseFrame.add_expense c amt w) = w /\
   fst (ExpenseFrame.add_expense c amt w) <> Ok ExpenseAdded) \/
  exists a f, amt = Some a /\ 0 < a /\ strip c <> "" /\
    FinanceManager.get_available_funds w = (Ok f, w) /\ a <= f /\
    ExpenseFrame.add_expense c amt w =
      (Ok ExpenseAdded, with_expense (strip c) (VInt a) w).
Proof.
  destruct (String.eqb_spec (strip c) "") as [E|E].
  { left. rewrite add_expense_invalid by auto. by split. }
  destruct amt as [a|]; [|left; rewrite add_expense_invalid by auto; by split].
  destruct (Z.leb_spec a 0) as [Ha|Ha].
  { left. rewrite add_expense_invalid by eauto. by split. }
  pose proof (get_available_funds_run w) as Hf.
  rewrite (add_expense_unfunded w c a E Ha).
  destruct (fst (FinanceManager.get_available_funds w)) as [f|e]; [|left; by split].
  destruct (Z.leb_spec a f) as [Hle|Hgt]; [|left; by split].
  rewrite (add_expense_checked w c a f E Ha Hf Hle).
  destruct (ExpenseFrame.first_budget _ _ ≫= as_num) as [B|]; [|left; by split].
  destruct (0 <? B).
  - destruct (FinanceManager.sum_category _ _ 0) as [spent|]; [|left; by split].
    destruct (B <? spent + a); [left; by split|]. right. by exists a, f.
  - right. by exists a, f.
Qed.

Lemma achieve_goal_guard (w : World) (idx : Z) :
  idx < 0 \/ Z.of_nat (length (goals (data w))) <= idx ->
  SummaryFrame.achieve_goal idx w = (Ok NoDialog, w).
Proof.
  intros H. unfold SummaryFrame.achieve_goal, mbind at 1, M_bind at 1, gets. simpl.
  destruct H as [H|H].
  - by replace (idx <? 0) with true by (symmetry; apply Z.ltb_lt; lia).
  - replace (Z.of_nat (length (goals (data w))) <=? idx) with true
      by (symmetry; apply Z.leb_le; lia).
    by rewrite orb_true_r.
Qed.

(** Achieving the goal at a position that holds one, on any store. *)
Lemma achieve_goal_step (w : World) (i : nat) (g : value) :
  goals (data w) !! i = Some g ->
  SummaryFrame.achieve_goal (Z.of_nat i) w =
  match fst (FinanceManager.get_available_funds w) with
  | Raise e => (Raise e, w)
  | Ok f =>
      match as_num (SummaryFrame.goal_amt g) with
      | Raise e => (Raise e, w)
      | Ok n =>
          if f <? n then (Ok (InsufficientBalance (SummaryFrame.goal_name g)), w)
          else (Ok (GoalAchieved (SummaryFrame.goal_name g)),
                with_expense (SummaryFrame.expense_category (SummaryFrame.goal_name g))
                  (SummaryFrame.goal_amt g) (without_goal i w))
      end
  end.
Proof.
  intros Hg. pose proof (get_available_funds_run w) as Hf.
  unfold SummaryFrame.achieve_goal, mbind at 1, M_bind at 1, gets. simpl.
  replace (Z.of_nat i <? 0) with false by (symmetry; apply Z.ltb_ge; lia).
  replace (Z.of_nat (length (goals (data w))) <=? Z.of_nat i) with false
    by (symmetry; apply Z.leb_gt; apply lookup_lt_Some in Hg; lia).
  simpl. unfold mbind at 1, M_bind at 1, lift at 1.
  rewrite (list_getitem_nat _ _ _ Hg).
  unfold mbind at 1, M_bind at 1. rewrite Hf.
  destruct (fst (FinanceManager.get_available_funds w)) as [f|e]; [|done].
  cbn [fst]. unfold mbind at 1, M_bind at 1, lift at 1.
  destruct (as_num (SummaryFrame.goal_amt g)) as [n|e]; [|done].
  destruct (f <? n); [done|].
  unfold mbind at 1, M_bind at 1.
  rewrite (delete_goal_at w (Z.of_nat i) i).
  - unfold mbind at 1, M_bind at 1. by rewrite add_expense_at.
  - rewrite py_index_in_range by (apply lookup_lt_Some in Hg; lia).
    by rewrite Nat2Z.id.
Qed.

(** Achieving one goal, on any store: nothing changes, or the goal at the
    position leaves the list and its amount is spent. *)
Lemma achieve_goal_cases (w : World) (idx : Z) :
  snd (SummaryFrame.achieve_goal idx w) = w \/
  exists (i : nat) (g : value) (n f : Z),
    goals (data w) !! i = Some g /\ as_num (SummaryFrame.goal_amt g) = Ok n /\
    FinanceManager.get_available_funds w = (Ok f, w) /\ n <= f /\
    snd (SummaryFrame.achieve_goal idx w) =
      with_expense (SummaryFrame.expense_category (SummaryFrame.goal_name g))
        (SummaryFrame.goal_amt g) (without_goal i w).
Proof.
  destruct (Z.ltb_spec idx 0) as [Hn|Hn]; [left; by rewrite achieve_goal_guard by lia|].
  destruct (Z.leb_spec (Z.of_nat (length (goals (data w)))) idx) as [Hb|Hb];
    [left; by rewrite achieve_goal_guard by lia|].
  destruct (lookup_lt_is_Some_2 (goals (data w)) (Z.to_nat idx)) as [g Hg]; [lia|].
  replace idx with (Z.of_nat (Z.to_nat idx)) by lia.
  rewrite (achieve_goal_step w _ g Hg).
  pose proof (get_available_funds_run w) as Hf.
  destruct (fst (FinanceManager.get_available_funds w)) as [f|e]; [|by left].
  destruct (as_num (SummaryFrame.goal_amt g)) as [n|e] eqn:En; [|by left].
  destruct (Z.ltb_spec f n) as [Hlt|Hge]; [by left|].
  right. by exists (Z.to_nat idx), g, n, f.
Qed.

(** ** The file follows the memory *)

Lemma delete_goal_synced (w : World) (i : Z) :
  synced w -> synced (snd (FinanceManager.delete_goal i w)).
Proof.
  intros H. destruct (py_index (length (goals (data w))) i) as [j|] eqn:E.
  - by rewrite (delete_goal_at w i j E).
  - by rewrite (delete_goal_raise w i E).
Qed.

Lemma achieve_loop_synced (gs : list value) :
  forall (balance : Z) (achieved not_achieved : list value) (w : World),
    synced w ->
    synced (snd (SummaryFrame.achieve_loop gs balance achieved not_achieved w)).
Proof.
  induction gs as [|g gs IH]; intros balance achieved not_achieved w Hw; [done|].
  cbn [SummaryFrame.achieve_loop]. unfold mbind at 1, M_bind at 1, lift at 1.
  destruct (as_num (SummaryFrame.goal_amt g)) as [n|e]; [|done].
  destruct (n <=? balance); [|by apply IH].
  unfold mbind at 1, M_bind at 1. rewrite delete_goal_total.
  unfold mbind at 1, M_bind at 1. rewrite add_expense_at.
  by apply IH.
Qed.

Lemma callback_synced (w : World) (a : action) : synced w -> synced (step w a).
Proof.
  intros Hw. unfold step. destruct a as [c amt|c amt|c amt|c amt|idx|idx| | |[]|[]];
    cbn [callback outcome snd]; try done.
  - by destruct (income_form_cases w c amt) as [->|(a & _ & _ & ->)].
  - by destruct (expense_form_cases w c amt) as [[-> _]|(a & f & _ & _ & _ & _ & _ & ->)].
  - by destruct (budget_form_cases w c amt) as [->|(a & _ & _ & ->)].
  - by destruct (goal_form_cases w c amt) as [->|(a & _ & _ & ->)].
  - by destruct (achieve_goal_cases w idx) as [->|(i & g & n & f & _ & _ & _ & _ & ->)].
  - by apply delete_goal_synced.
  - unfold SummaryFrame.achieve_all_goals, mbind at 1, M_bind at 1, gets.
    unfold mbind at 1, M_bind at 1. rewrite (get_available_funds_run w).
    destruct (fst (FinanceManager.get_available_funds w)); [|done].
    by apply achieve_loop_synced.
Qed.

(** X8. Once the store in memory is the document last handed to
    [save_data], it stays so through every session: each callback either
    changes nothing or follows its last change of the store by a save, also
    when it raises half way. *)
Theorem session_synced (w : World) (l : list action) :
  synced w -> synced (session w l).
Proof.
  revert w. induction l as [|a l IH]; intros w Hw; [done|].
  apply IH. by apply callback_synced.
Qed.

Lemma session_synced_witness :
  synced (session (FinanceManager.__init__ Missing "2024-01-02")
            [SubmitIncome "Salary" (Some 100); SubmitGoal "Trip" (Some 40);
             SubmitExpense "Food" (Some 500); ClickAchieve 0;
             ClickClearTransactions true]).
Proof. apply session_synced. reflexivity. Defined.

(** ** Stores made through the forms *)

Lemma total_amount_app (l l' : list value) :
  total_amount (l ++ l') = total_amount l + total_amount l'.
Proof. induction l as [|x l IH]; simpl; [done|]. rewrite IH. lia. Qed.

Lemma posted_amount_ok (item : value) : posted item -> amount_ok item.
Proof. intros (c & a & d & -> & _). eexists. split; [done|]. right. by exists a. Qed.

Lemma posted_sum (l : list value) :
  Forall posted l -> FinanceManager.sum_amounts l 0 = Ok (total_amount l).
Proof.
  intros H. rewrite sum_amounts_ok; [done|].
  eapply Forall_impl; [exact H|]. apply posted_amount_ok.
Qed.

Lemma sound_funds (w : World) :
  sound (data w) ->
  FinanceManager.get_available_funds w =
    (Ok (total_amount (incomes (data w)) - total_amount (expenses (data w))), w).
Proof.
  intros (Hi & He & _). apply get_available_funds_eq; by apply posted_sum.
Qed.

Lemma goal_entry_is_goal (g : value) :
  goal_entry g -> exists n a, is_goal g n a /\ 0 < a /\ amount_of g = a.
Proof. intros (n & a & -> & _ & Ha). exists n, a. split; [by eexists|done]. Qed.

Lemma first_budget_total (bs : list value) (nc : string) :
  Forall budget_entry bs -> exists B, ExpenseFrame.first_budget bs nc ≫= as_num = Ok B.
Proof.
  induction 1 as [|b bs (c & a & -> & _) _ IH]; [by exists 0|].
  simpl. destruct (String.eqb (capitalize (strip c)) nc); [by exists a|exact IH].
Qed.

Lemma sum_category_total (c : string) (l : list value) :
  Forall posted l -> forall acc, exists t, FinanceManager.sum_category c l acc = Ok t.
Proof.
  induction 1 as [|e l (c' & a & d & -> & _) _ IH]; intros acc; [by exists acc|].
  simpl. destruct (String.eqb c' c); simpl; apply IH.
Qed.

Lemma expense_form_total (w : World) (c : string) (amt : option Z) :
  sound (data w) -> exists d, fst (ExpenseFrame.add_expense c amt w) = Ok d.
Proof.
  intros Hs. pose proof (sound_funds w Hs) as Hf. destruct Hs as (_ & He & Hb & _).
  destruct (String.eqb_spec (strip c) "") as [E|E].
  { unfold ExpenseFrame.add_expense. rewrite E. by eexists. }
  destruct amt as [a|];
    [|unfold ExpenseFrame.add_expense; destruct (String.eqb (strip c) ""); by eexists].
  destruct (Z.leb_spec a 0) as [Ha|Ha].
  { unfold ExpenseFrame.add_expense. destruct (String.eqb (strip c) ""); [by eexists|].
    replace (a <=? 0) with true by (symmetry; apply Z.leb_le; lia). by eexists. }
  destruct (Z.leb_spec a (total_amount (incomes (data w)) - total_amount (expenses (data w))))
    as [Hle|Hgt].
  - rewrite (add_expense_checked w c a _ E Ha Hf Hle).
    destruct (first_budget_total (budgets (data w)) (normalize (strip c)) Hb) as [B ->].
    destruct (0 <? B); [|by eexists].
    destruct (sum_category_total (normalize (strip c)) _ He 0) as [t ->].
    destruct (B <? t + a); by eexists.
  - unfold ExpenseFrame.add_expense.
    destruct (String.eqb_spec (strip c) ""); [done|].
    replace (a <=? 0) with false by (symmetry; apply Z.leb_gt; lia).
    unfold FinanceManager.can_add_expense, mbind at 1, M_bind at 1, lift. simpl.
    unfold mbind at 1, M_bind at 1, mbind at 1, M_bind at 1. rewrite Hf. simpl.
    replace (a <=? _) with false by (symmetry; apply Z.leb_gt; lia). by eexists.
Qed.

Lemma greedy_Forall (P : value -> Prop) (gs : list value) (balance : Z) :
  Forall P gs -> Forall P (fst (greedy gs balance)).
Proof.
  intros H. revert balance. induction H as [|g gs Hg _ IH]; intros balance; [done|].
  simpl. destruct (amount_of g <=? balance); simpl; [constructor|]; auto.
Qed.

(** The goals the greedy rule lets through cost no more than the funds. *)
Lemma greedy_within (gs : list value) (balance : Z) :
  0 <= balance -> total_amount (fst (greedy gs balance)) <= balance.
Proof.
  revert balance. induction gs as [|g gs IH]; intros balance Hb; [done|].
  simpl. destruct (Z.leb_spec (amount_of g) balance) as [Hle|Hgt]; simpl.
  - specialize (IH (balance - amount_of g)). lia.
  - by apply IH.
Qed.

Lemma settlement_total (d : string) (l : list value) :
  total_amount (settlement d <$> l) = total_amount l.
Proof. induction l as [|g l IH]; csimpl; [done|]. by rewrite IH. Qed.

Lemma category_not_blank (name : value) : SummaryFrame.expense_category name <> "".
Proof. done. Qed.

Lemma settlement_posted (d : string) (l : list value) :
  Forall goal_entry l -> Forall posted (settlement d <$> l).
Proof.
  induction 1 as [|g l (n & a & -> & _ & Ha) _ IH]; csimpl; constructor; [|done].
  eexists _, a, d. split; [reflexivity|]. split; [apply category_not_blank|done].
Qed.

Lemma goal_entries_well_formed (l : list value) :
  Forall goal_entry l -> Forall well_formed_goal l.
Proof.
  intros H. eapply Forall_impl; [exact H|].
  intros g (n & a & Hg & _)%goal_entry_is_goal. by exists n, a.
Qed.

(** On a sound store no callback raises, and the store it leaves is sound. *)
Lemma callback_sound (w : World) (a : action) :
  sound (data w) -> fst (callback a w) = Ok tt /\ sound (data (step w a)).
Proof.
  intros Hs. pose proof (sound_funds w Hs) as Hf.
  pose proof Hs as (Hi & He & Hb & Hg & Hle).
  unfold step. destruct a as [c amt|c amt|c amt|c amt|idx|idx| | |[]|[]];
    cbn [callback outcome snd fst].
  - destruct (income_form_cases w c amt) as [->|(a & Ha & Hc & ->)]; [done|].
    split; [done|]. repeat split; simpl; try done.
    + apply Forall_app. split; [done|]. constructor; [|done]. by eexists _, a, _.
    + rewrite total_amount_app. simpl. lia.
  - destruct (expense_form_total w c amt Hs) as [d Hd]. rewrite Hd. split; [done|].
    destruct (expense_form_cases w c amt)
      as [[-> _]|(a & f & _ & Ha & Hc & Hf' & Haf & ->)]; [done|].
    rewrite Hf in Hf'. injection Hf' as <-.
    repeat split; simpl; try done.
    + apply Forall_app. split; [done|]. constructor; [|done]. by eexists _, a, _.
    + rewrite total_amount_app. simpl. lia.
  - destruct (budget_form_cases w c amt) as [->|(a & Ha & Hc & ->)]; [done|].
    split; [done|]. repeat split; simpl; try done.
    apply Forall_app. split; [done|]. constructor; [|done]. by eexists _, a.
  - destruct (goal_form_cases w c amt) as [->|(a & Ha & Hc & ->)]; [done|].
    split; [done|]. repeat split; simpl; try done.
    apply Forall_app. split; [done|]. constructor; [|done]. by eexists _, a.
  - destruct (Z.ltb_spec idx 0) as [Hn|Hn]; [by rewrite achieve_goal_guard by lia|].
    destruct (Z.leb_spec (Z.of_nat (length (goals (data w)))) idx) as [Hlen|Hlen];
      [by rewrite achieve_goal_guard by lia|].
    destruct (lookup_lt_is_Some_2 (goals (data w)) (Z.to_nat idx)) as [g Hgi]; [lia|].
    replace idx with (Z.of_nat (Z.to_nat idx)) by lia.
    rewrite (achieve_goal_step w _ g Hgi), Hf. cbn [fst].
    pose proof (Forall_lookup_1 _ _ _ _ Hg Hgi) as (n & a & -> & Hn' & Ha).
    cbn [SummaryFrame.goal_amt SummaryFrame.goal_name FinanceManager.entry2 dict_get
         String.eqb Ascii.eqb Bool.eqb from_option id as_num].
    destruct (Z.ltb_spec (total_amount (incomes (data w)) - total_amount (expenses (data w))) a)
      as [Hlt|Hge]; [done|].
    split; [done|]. repeat split; simpl; try done.
    + apply Forall_app. split; [done|]. constructor; [|done].
      eexists _, a, _. split; [reflexivity|]. split; [apply category_not_blank|done].
    + by apply Forall_delete.
    + rewrite total_amount_app. simpl. lia.
  - unfold SummaryFrame.delete_goal. rewrite delete_goal_total. split; [done|].
    cbn [snd]. destruct (py_index (length (goals (data w))) idx) as [j|] eqn:E.
    + rewrite (delete_goal_at w idx j E). repeat split; simpl; try done.
      by apply Forall_delete.
    + by rewrite (delete_goal_raise w idx E).
  - assert (E : SummaryFrame.achieve_all_goals w =
                SummaryFrame.achieve_loop (goals (data w))
                  (total_amount (incomes (data w)) - total_amount (expenses (data w)))
                  [] [] w).
    { unfold SummaryFrame.achieve_all_goals, mbind, M_bind, gets. by rewrite Hf. }
    rewrite E.
    destruct (achieve_loop_run (goals (data w))
                (total_amount (incomes (data w)) - total_amount (expenses (data w)))
                [] [] w (goal_entries_well_formed _ Hg))
      as (E1 & E2 & E3 & E4 & E5 & _); [done|].
    rewrite E1. split; [done|]. unfold sound. rewrite E2, E3, E4, E5.
    repeat split; try done.
    + apply Forall_app. split; [done|]. apply settlement_posted. by apply greedy_Forall.
    + by apply Forall_drop.
    + rewrite total_amount_app, settlement_total.
      pose proof (greedy_within (goals (data w))
                    (total_amount (incomes (data w)) - total_amount (expenses (data w)))).
      lia.
  - split; [done|]. repeat split; simpl; try done.
  - split; [done|]. repeat split; simpl; try done.
  - done.
  - split; [done|]. repeat split; simpl; try done.
  - done.
Qed.

Lemma session_sound (w : World) (l : list action) :
  sound (data w) -> sound (data (session w l)).
Proof.
  revert w. induction l as [|a l IH]; intros w Hw; [done|].
  apply IH. by apply callback_sound.
Qed.

Lemma fresh_sound (d : string) : sound (data (FinanceManager.__init__ Missing d)).
Proof. unfold sound. simpl. repeat split; (constructor || lia). Qed.

(** X11. On a sound store no callback raises: whatever is typed and
    clicked, every callback of a session returns. *)
Theorem session_never_raises (w : World) (l : list action) (a : action) :
  sound (data w) -> fst (callback a (session w l)) = Ok tt.
Proof. intros Hs. by apply callback_sound, session_sound. Qed.

Lemma session_never_raises_witness :
  fst (callback ClickAchieveAll
         (session (FinanceManager.__init__ Missing "2024-01-02")
            [SubmitIncome "Salary" (Some 100); SubmitGoal "Trip" (Some 40)])) = Ok tt.
Proof. apply session_never_raises. apply fresh_sound. Defined.

(** ** Achieving all goals, continued *)

(** X13. When no goal that fails the check comes before one that passes it,
    that is, when the goal list is the achieved goals followed by the
    rejected ones, [achieve_all_goals] leaves exactly the rejected goals in
    the list. *)
Theorem achieve_all_goals_in_order_is_right (w : World) (funds : Z) :
  Forall well_formed_goal (goals (data w)) ->
  FinanceManager.get_available_funds w = (Ok funds, w) ->
  let p := greedy (goals (data w)) funds in
  goals (data w) = (fst p ++ snd p)%list ->
  goals (data (snd (SummaryFrame.achieve_all_goals w))) = snd p.
Proof.
  intros Hwf Hf p Hp.
  assert (E : SummaryFrame.achieve_all_goals w =
              SummaryFrame.achieve_loop (goals (data w)) funds [] [] w).
  { unfold SummaryFrame.achieve_all_goals, mbind, M_bind, gets. by rewrite Hf. }
  rewrite E.
  destruct (achieve_loop_run (goals (data w)) funds [] [] w Hwf) as (_ & E2 & _); [done|].
  rewrite E2. fold p. rewrite Hp. by rewrite drop_app_length.
Qed.

Lemma achieve_all_goals_in_order_is_right_witness :
  let w := world_of (mkStore [income "Salary" 60] [] []
                             [goal "G1" 50; goal "G2" 30] []) in
  goals (data (snd (SummaryFrame.achieve_all_goals w))) = [goal "G2" 30].
Proof.
  intros w. apply (achieve_all_goals_in_order_is_right w 60).
  - repeat constructor; eexists _, _; by eexists.
  - reflexivity.
  - reflexivity.
Defined.

(** ** The budget check and the way categories are typed *)

Lemma sum_category_snoc (c : string) (l : list value) (x : value) (acc : Z) :
  FinanceManager.sum_category c (l ++ [x])%list acc =
  FinanceManager.sum_category c l acc ≫= FinanceManager.sum_category c [x].
Proof.
  revert acc. induction l as [|y l IH]; intros acc.
  - simpl. destruct (py_item x "category") as [v|]; simpl; [|done].
    destruct (eq_str v c); [|done].
    destruct (py_item x "amount") as [a|]; simpl; [|done].
    by destruct (as_num a).
  - simpl. destruct (py_item y "category") as [v|]; simpl; [|done].
    destruct (eq_str v c); [|by apply IH].
    destruct (py_item y "amount") as [a|]; simpl; [|done].
    destruct (as_num a); simpl; [by apply IH|done].
Qed.

Lemma category_expense_after (w : World) (c cat : string) (a : Z) :
  fst (FinanceManager.get_category_expense c (with_expense cat (VInt a) w)) =
  n ← fst (FinanceManager.get_category_expense c w);
  Ok (if String.eqb cat c then n + a else n).
Proof.
  run. rewrite sum_category_snoc.
  destruct (FinanceManager.sum_category c (expenses (data w)) 0) as [n|]; simpl; [|done].
  by destruct (String.eqb cat c).
Qed.

(** X15. An expense typed with a category that is not in normalized form
    (say [food] where the normal form is [Food]) is stored as typed, and the
    sum that the budget check reads, the one stored under the normal form,
    is the same before and after the submission: such expenses never use up
    the budget. *)
Theorem raw_category_never_fills_budget (w : World) (c : string) (amt : option Z) :
  strip c <> normalize (strip c) ->
  fst (FinanceManager.get_category_expense (normalize (strip c))
         (snd (ExpenseFrame.add_expense c amt w))) =
  fst (FinanceManager.get_category_expense (normalize (strip c)) w).
Proof.
  intros Hne.
  destruct (expense_form_cases w c amt) as [[-> _]|(a & f & _ & _ & _ & _ & _ & ->)];
    [done|].
  cbn [snd]. rewrite category_expense_after.
  destruct (String.eqb_spec (strip c) (normalize (strip c))); [done|].
  by destruct (fst (FinanceManager.get_category_expense _ w)).
Qed.

Lemma raw_category_never_fills_budget_witness :
  let w := world_of (mkStore [income "Salary" 100] []
                             [VDict [("category", VStr "Food"); ("amount", VInt 20)]]
                             [] []) in
  let w1 := snd (ExpenseFrame.add_expense "food" (Some 15) w) in
  length (expenses (data w1)) = 1%nat /\
  fst (FinanceManager.get_category_expense "Food" w1) = Ok 0.
Proof.
  intros w w1. split; [reflexivity|].
  apply (raw_category_never_fills_budget w "food" (Some 15)).
  vm_compute. discriminate.
Defined.

(** ** What the queries read *)

(** [categories] reads the incomes and the expenses only. *)
Lemma categories_same_ledger (w w' : World) :
  incomes (data w') = incomes (data w) ->
  expenses (data w') = expenses (data w) ->
  fst (FinanceManager.categories w') = fst (FinanceManager.categories w).
Proof.
  intros Hi He. unfold FinanceManager.categories, mbind, M_bind, gets, lift.
  rewrite Hi, He.
  destruct (FinanceManager.add_categories (incomes (data w)) []) as [c1|]; [|done].
  destruct (FinanceManager.add_categories (expenses (data w)) c1) as [c2|]; [|done].
  by destruct (FinanceManager.sorted c2).
Qed.

Lemma funds_result_same_ledger (w w' : World) :
  incomes (data w') = incomes (data w) ->
  expenses (data w') = expenses (data w) ->
  fst (FinanceManager.get_available_funds w') = fst (FinanceManager.get_available_funds w).
Proof.
  intros Hi He.
  by rewrite (funds_same_ledger w w' _ Hi He (get_available_funds_run w)).
Qed.

Lemma delete_goal_ledger (w : World) (i : Z) :
  incomes (data (snd (FinanceManager.delete_goal i w))) = incomes (data w) /\
  expenses (data (snd (FinanceManager.delete_goal i w))) = expenses (data w).
Proof.
  destruct (py_index (length (goals (data w))) i) as [j|] eqn:E.
  - by rewrite (delete_goal_at w i j E).
  - by rewrite (delete_goal_raise w i E).
Qed.

(** X18. Whatever is done to goals and budgets leaves the ledger alone:
    after [delete_goal], the manager's [achieve_goal], [delete_all_goals],
    the goal form, the budget form or [delete_budgets], with any arguments,
    [categories()] and [get_available_funds()] return what they returned
    before. In particular a goal that is deleted leaves no settlement
    expense behind. *)
Theorem goals_and_budgets_leave_ledger
    (w : World) (i : Z) (text : string) (amt : option Z) (confirm : bool) :
  let same (w' : World) :=
    fst (FinanceManager.categories w') = fst (FinanceManager.categories w) /\
    fst (FinanceManager.get_available_funds w') =
      fst (FinanceManager.get_available_funds w) in
  same (snd (FinanceManager.delete_goal i w)) /\
  same (snd (FinanceManager.achieve_goal i w)) /\
  same (snd (FinanceManager.delete_all_goals w)) /\
  same (snd (GoalFrame.set_goal text amt w)) /\
  same (snd (BudgetFrame.set_budget text amt w)) /\
  same (snd (SummaryFrame.delete_budgets confirm w)).
Proof.
  intros same.
  assert (Hsame : forall w', incomes (data w') = incomes (data w) ->
                             expenses (data w') = expenses (data w) -> same w').
  { intros w' Hi He. split;
      [by apply categories_same_ledger|by apply funds_result_same_ledger]. }
  split; [apply Hsame; apply delete_goal_ledger|].
  split.
  { apply Hsame;
      unfold FinanceManager.achieve_goal, try_index_key, mbind, M_bind, gets, lift;
      (destruct (list_getitem (goals (data w)) i) as [g|[]]; try done);
      by destruct (list_delitem (goals (data w)) i) as [g'|[]]. }
  split; [by apply Hsame|].
  split.
  { apply Hsame; by destruct (goal_form_cases w text amt) as [->|(a & _ & _ & ->)]. }
  split.
  { apply Hsame; by destruct (budget_form_cases w text amt) as [->|(a & _ & _ & ->)]. }
  apply Hsame; by destruct confirm.
Qed.

Lemma categories_run (w : World) :
  Forall (fun item => exists c, has_category item c)
         (incomes (data w) ++ expenses (data w))%list ->
  exists cs : list string,
    FinanceManager.categories w = (Ok (VStr <$> cs), w) /\
    forall c, c ∈ cs <->
      exists item, item ∈ (incomes (data w) ++ expenses (data w))%list /\
                   has_category item c.
Proof.
  intros H. apply Forall_app in H as [Hi He].
  destruct (add_categories_strs _ [] Hi) as (a1 & E1 & N1 & I1).
  destruct (add_categories_strs _ a1 He) as (a2 & E2 & N2 & I2).
  exists (merge_sort String.le a2).
  unfold FinanceManager.categories, mbind, M_bind, gets, lift.
  change (@nil value) with (VStr <$> @nil string). rewrite E1, E2, sorted_strs.
  split; [done|].
  intros c. rewrite merge_sort_Permutation, I2, I1. split.
  - intros [[Hn|(item & Hin & Hc)]|(item & Hin & Hc)].
    + by apply elem_of_nil in Hn.
    + exists item. split; [|done]. apply elem_of_app. by left.
    + exists item. split; [|done]. apply elem_of_app. by right.
  - intros (item & [Hin|Hin]%elem_of_app & Hc); [left; right|right]; eauto.
Qed.

(** X19. On a store whose incomes and expenses carry text categories, a
    category used in [add_income] or [add_expense] is listed by
    [categories()] afterwards, as it was typed, and every category listed
    before is still listed. *)
Theorem categories_grow (w : World) (c : string) (a : Z) :
  Forall (fun item => exists c, has_category item c)
         (incomes (data w) ++ expenses (data w))%list ->
  exists cs cs1 cs2 : list string,
    fst (FinanceManager.categories w) = Ok (VStr <$> cs) /\
    fst (FinanceManager.categories (snd (FinanceManager.add_income c (VInt a) w))) =
      Ok (VStr <$> cs1) /\
    fst (FinanceManager.categories (snd (FinanceManager.add_expense c (VInt a) w))) =
      Ok (VStr <$> cs2) /\
    (forall x, x ∈ cs1 <-> x = c \/ x ∈ cs) /\
    (forall x, x ∈ cs2 <-> x = c \/ x ∈ cs).
Proof.
  intros H. pose proof H as [Hi He]%Forall_app.
  assert (Hnew : forall d, exists c', has_category (FinanceManager.entry3 c (VInt a) d) c')
    by (intros d; exists c; by eexists).
  destruct (categories_run w H) as (cs & E & Hcs).
  destruct (categories_run (with_income c (VInt a) w)) as (cs1 & E1 & Hcs1).
  { simpl. apply Forall_app. split; [|done]. apply Forall_app. split; [done|].
    constructor; [apply Hnew|done]. }
  destruct (categories_run (with_expense c (VInt a) w)) as (cs2 & E2 & Hcs2).
  { simpl. apply Forall_app. split; [done|]. apply Forall_app. split; [done|].
    constructor; [apply Hnew|done]. }
  exists cs, cs1, cs2. rewrite add_income_at, add_expense_at. cbn [snd].
  rewrite E, E1, E2. split; [done|]. split; [done|]. split; [done|].
  split; intros x.
  - rewrite Hcs1, Hcs. simpl. split.
    + intros (item & Hin & Hc). rewrite !elem_of_app, list_elem_of_singleton in Hin.
      destruct Hin as [[Hin| ->]|Hin].
      * right. exists item. rewrite elem_of_app. eauto.
      * left. destruct Hc as (kv & [= <-] & [= <-]). done.
      * right. exists item. rewrite elem_of_app. eauto.
    + intros [->|(item & Hin & Hc)].
      * eexists. rewrite !elem_of_app, list_elem_of_singleton.
        split; [left; right; reflexivity|by eexists].
      * exists item. rewrite !elem_of_app. rewrite elem_of_app in Hin.
        split; [|done]. tauto.
  - rewrite Hcs2, Hcs. simpl. split.
    + intros (item & Hin & Hc). rewrite !elem_of_app, list_elem_of_singleton in Hin.
      destruct Hin as [Hin|[Hin| ->]].
      * right. exists item. rewrite elem_of_app. eauto.
      * right. exists item. rewrite elem_of_app. eauto.
      * left. destruct Hc as (kv & [= <-] & [= <-]). done.
    + intros [->|(item & Hin & Hc)].
      * eexists. rewrite !elem_of_app, list_elem_of_singleton.
        split; [right; right; reflexivity|by eexists].
      * exists item. rewrite !elem_of_app. rewrite elem_of_app in Hin.
        split; [|done]. tauto.
Qed.

Lemma categories_grow_witness :
  let w := world_of (mkStore [income "Salary" 100] [income "Food" 30] [] [] []) in
  exists cs1 : list string,
    fst (FinanceManager.categories (snd (FinanceManager.add_income "food" (VInt 5) w))) =
      Ok (VStr <$> cs1) /\
    "food" ∈ cs1.
Proof.
  intros w. destruct (categories_grow w "food" 5) as (cs & cs1 & cs2 & _ & E1 & _ & H1 & _).
  - repeat constructor; eexists; by eexists.
  - exists cs1. split; [exact E1|]. apply H1. by left.
Defined.

(** ** Clearing the transactions *)

(** X20. [clear_transactions], once confirmed, empties the incomes and the
    expenses, keeps budgets and goals, and writes the result: afterwards
    [categories()] is empty and the available funds are 0, so that achieving
    any goal with a positive amount is refused for lack of balance. When the
    question is answered with no, nothing changes. *)
Theorem clear_transactions_effect (w : World) :
  let w' := snd (CategorySummaryFrame.clear_transactions true w) in
  CategorySummaryFrame.clear_transactions false w = (Ok tt, w) /\
  data w' = set_expenses [] (set_incomes [] (data w)) /\
  written w' = data w' :: written w /\
  FinanceManager.categories w' = (Ok [], w') /\
  FinanceManager.get_available_funds w' = (Ok 0, w') /\
  forall (i : nat) (g : value) (name : string) (a : Z),
    goals (data w) !! i = Some g -> is_goal g name a -> 0 < a ->
    SummaryFrame.achieve_goal (Z.of_nat i) w' = (Ok (InsufficientBalance (VStr name)), w').
Proof.
  intros w'. subst w'. repeat split.
  intros i g name a Hg Hgoal Ha.
  rewrite (achieve_goal_run _ i g name a 0); [|done|done|done].
  by replace (0 <? a) with true by (symmetry; apply Z.ltb_lt; lia).
Qed.

Lemma clear_transactions_effect_witness :
  let w := world_of (mkStore [income "Salary" 100] [income "Food" 30] []
                             [goal "Trip" 50] []) in
  let w' := snd (CategorySummaryFrame.clear_transactions true w) in
  SummaryFrame.achieve_goal 0 w' = (Ok (InsufficientBalance (VStr "Trip")), w').
Proof.
  intros w w'. destruct (clear_transactions_effect w) as (_ & _ & _ & _ & _ & H).
  apply (H 0%nat (goal "Trip" 50) "Trip" 50); [reflexivity|by eexists|lia].
Defined.

(** ** An empty goal list *)

Lemma py_index_empty (i : Z) : py_index 0 i = None.
Proof.
  unfold py_index. change (Z.of_nat 0) with 0.
  destruct (i <? 0) eqn:E.
  - apply Z.ltb_lt in E.
    by replace (0 <=? i + 0) with false by (symmetry; apply Z.leb_gt; lia).
  - by rewrite E, andb_false_r.
Qed.

(** X22. [delete_all_goals] and the manager's [achieve_all_goals] empty the
    goal list, keep the other sequences and write the result;
    [achieve_all_goals] returns the goals that were there. Afterwards no
    integer is a valid position: [delete_goal] does nothing and
    [achieve_goal] returns [None], for negative indices as well. *)
Theorem goal_list_emptied (w : World) (i : Z) :
  let w' := mkWorld (set_goals [] (data w)) (set_goals [] (data w) :: written w)
                    (today w) in
  FinanceManager.delete_all_goals w = (Ok tt, w') /\
  FinanceManager.achieve_all_goals w = (Ok (goals (data w)), w') /\
  FinanceManager.delete_goal i w' = (Ok tt, w') /\
  FinanceManager.achieve_goal i w' = (Ok VNone, w').
Proof.
  intros w'. split; [done|]. split; [done|]. split.
  - apply delete_goal_raise. apply py_index_empty.
  - run. unfold list_getitem. simpl. by rewrite py_index_empty.
Qed.

(** * The callbacks over Python's numbers *)








(** ** Achieving one goal *)








(** ** The entry forms *)

(** X4. The income, budget and goal forms accept a submission exactly when
    the text is not blank once stripped, the amount parses, and [amt <= 0]
    is false; the record is then stored under the stripped text with the
    amount as parsed, and written. Otherwise they end in the error box with
    the world unchanged. (For floats [amt <= 0] is false of [nan] and of
    [inf] as well.) *)
Theorem forms_accept_unless_le_zero {N} {R : Py.Runtime N} (w : Py.World N) (text : string)
    (amt : option N) :
  (Py.str_strip text = "" \/ amt = None \/
   (exists a, amt = Some a /\ Py.num_le a Py.num0 = true) ->
   Py.IncomeFrame.add_income text amt w = (Ok FormInputError, w) /\
   Py.BudgetFrame.set_budget text amt w = (Ok FormInputError, w) /\
   Py.GoalFrame.set_goal text amt w = (Ok FormInputError, w)) /\
  (forall a, Py.str_strip text <> "" -> amt = Some a -> Py.num_le a Py.num0 = false ->
   Py.IncomeFrame.add_income text amt w =
     (Ok FormSuccess, Py.with_income (Py.str_strip text) (Py.VNum a) w) /\
   Py.BudgetFrame.set_budget text amt w =
     (Ok FormSuccess, Py.with_budget (Py.str_strip text) (Py.VNum a) w) /\
   Py.GoalFrame.set_goal text amt w =
     (Ok FormSuccess, Py.with_goal (Py.str_strip text) (Py.VNum a) w)).
Proof.
  unfold Py.IncomeFrame.add_income, Py.BudgetFrame.set_budget, Py.GoalFrame.set_goal.
  split.
  - intros H. destruct (String.eqb_spec (Py.str_strip text) "") as [E|E]; [done|].
    destruct H as [H|[->|(a & -> & Ha)]]; [done|done|].
    by rewrite Ha.
  - intros a Ht -> Ha. destruct (String.eqb_spec (Py.str_strip text) "") as [E|E]; [done|].
    by rewrite Ha.
Qed.

Lemma forms_accept_unless_le_zero_witness :
  let w := float_world (Py.mkStore [] [] [] [] []) in
  Py.GoalFrame.set_goal (R := binary64) "   " (Some 5%float) w = (Ok FormInputError, w) /\
  Py.IncomeFrame.add_income (R := binary64) " Salary " (Some 0.5%float) w =
    (Ok FormSuccess, Py.with_income "Salary" (Py.VNum 0.5%float) w) /\
  Py.IncomeFrame.add_income (R := binary64) "Gift" (Some nan) w =
    (Ok FormSuccess, Py.with_income "Gift" (Py.VNum nan) w) /\
  Py.BudgetFrame.set_budget (R := binary64) "Food" (Some infinity) w =
    (Ok FormSuccess, Py.with_budget "Food" (Py.VNum infinity) w).
Proof.
  intros w.
  destruct (forms_accept_unless_le_zero (R := binary64) w "   " (Some 5%float)) as [H1 _].
  destruct (forms_accept_unless_le_zero (R := binary64) w " Salary " (Some 0.5%float)) as [_ H2].
  destruct (forms_accept_unless_le_zero (R := binary64) w "Gift" (Some nan)) as [_ H3].
  destruct (forms_accept_unless_le_zero (R := binary64) w "Food" (Some infinity)) as [_ H4].
  split; [|split; [|split]].
  - apply H1. left. reflexivity.
  - apply (H2 0.5%float); [vm_compute; discriminate|reflexivity|reflexivity].
  - apply (H3 nan); [vm_compute; discriminate|reflexivity|reflexivity].
  - apply (H4 infinity); [vm_compute; discriminate|reflexivity|reflexivity].
Defined.
